(** * Photoswitches: [property_prediction/data_utils.py]

    A shallow embedding of the five dataset loaders and of [transform_data],
    together with the properties of the specification that concern them.

    Conventions of the embedding:
    - a pandas [DataFrame] is a finite map from column names to columns, a
      column being the list of its cells;
    - Python exceptions are values of [exn]; a computation that may raise
      returns a [result];
    - the file system and the standard output form the [world], threaded
      through every top-level function by the monad [M];
    - numbers handled by [transform_data] are exact reals. *)

From Stdlib Require Import QArith Reals Lra.
From stdpp Require Import gmap strings list fin_maps.

#[local] Set Warnings "-clear-no-such-hyp".

(** ** Exceptions and results *)

Inductive exn : Type :=
  | FileNotFoundError
  | ParserError
  | KeyError
  | ValueError
  | IndexError
  | NotFittedError
  | LinAlgError.

Inductive result (A : Type) : Type :=
  | Ok (a : A)
  | Raise (e : exn).
Arguments Ok {A} a.
Arguments Raise {A} e.

#[global] Instance result_ret : MRet result := λ A a, Ok a.
#[global] Instance result_bind : MBind result := λ A B f r,
  match r with
  | Ok a => f a
  | Raise e => Raise e
  end.
#[global] Instance result_fmap : FMap result := λ A B f r,
  match r with
  | Ok a => Ok (f a)
  | Raise e => Raise e
  end.

(** ** Python lists *)

(** [l[lo:hi]] and [l[lo:]] for non-negative literal bounds: slices clamp to
    the length of the list and never raise. *)
Definition slice {A} (lo hi : nat) (l : list A) : list A :=
  take (hi - lo) (drop lo l).
Definition slice_from {A} (lo : nat) (l : list A) : list A := drop lo l.
Definition slice_to {A} (hi : nat) (l : list A) : list A := take hi l.

(** [l[i]] for a non-negative literal index. *)
Definition getitem {A} (l : list A) (i : nat) : result A :=
  match l !! i with
  | Some x => Ok x
  | None => Raise IndexError
  end.

(** ** pandas cells, tables and files *)

Inductive cell : Type :=
  | Str (s : string)
  | Num (x : Q)
  | NaN.

(** Python's [==] on cells: a string equals only the same string, and [nan]
    equals nothing. *)
Definition py_eq (a b : cell) : bool :=
  match a, b with
  | Str s, Str t => String.eqb s t
  | Num x, Num y => Qeq_bool x y
  | _, _ => false
  end.

(** [list.remove(x)]: drops the first item equal to [x]; [ValueError] when
    there is none. *)
Fixpoint list_remove (x : cell) (l : list cell) : result (list cell) :=
  match l with
  | [] => Raise ValueError
  | y :: l' => if py_eq y x then Ok l' else cons y <$> list_remove x l'
  end.

Abbreviation DataFrame := (gmap string (list cell)).

Inductive file : Type :=
  | Malformed
  | Csv (df : DataFrame).

(** [df[name]], followed by [.to_list()] or [.to_numpy()]. *)
Definition df_column (df : DataFrame) (name : string) : result (list cell) :=
  match df !! name with
  | Some c => Ok c
  | None => Raise KeyError
  end.

(** ** numpy *)

Definition arange (start stop : nat) : list nat := seq start (stop - start).

Definition concatenate {A} (a b : list A) : list A := a ++ b.

Fixpoint mask_select {A} (keep : list bool) (arr : list A) : list A :=
  match keep, arr with
  | k :: keep', x :: arr' =>
      if k then x :: mask_select keep' arr' else mask_select keep' arr'
  | _, _ => []
  end.

(** [np.delete(arr, i)] for a scalar [i]: [arr[:i]] followed by [arr[i+1:]];
    [IndexError] when [i] is out of bounds. *)
Definition np_delete1 {A} (arr : list A) (i : nat) : result (list A) :=
  if decide (i < length arr)
  then Ok (slice_to i arr ++ slice_from (S i) arr)
  else Raise IndexError.

(** [np.delete(arr, obj)] for an index array [obj]: a mask of [True] is
    cleared at every index of [obj] and the array is read through the mask;
    [IndexError] when some index is out of bounds (numpy 1.19 and later;
    the properties below only use in-bounds indices). *)
Definition np_delete {A} (arr : list A) (obj : list nat) : result (list A) :=
  if forallb (λ i, i <? length arr) obj
  then
    let keep := foldr (λ i keep, <[i:=false]> keep)
                      (replicate (length arr) true) obj in
    Ok (mask_select keep arr)
  else Raise IndexError.

(** ** The world and the monad of top-level functions *)

(** The state of numpy's global random number generator. *)
Definition rng_state : Type := list N.

Record world : Type := World {
  files : gmap string file;
  stdout : list (string * R);
  random_state : rng_state
}.

Definition M (A : Type) : Type := world → result A * world.

#[global] Instance M_ret : MRet M := λ A a w, (Ok a, w).
#[global] Instance M_bind : MBind M := λ A B f m w,
  match m w with
  | (Ok a, w') => f a w'
  | (Raise e, w') => (Raise e, w')
  end.

Definition lift {A} (r : result A) : M A := λ w, (r, w).

Definition read_csv (path : string) : M DataFrame := λ w,
  match files w !! path with
  | None => (Raise FileNotFoundError, w)
  | Some Malformed => (Raise ParserError, w)
  | Some (Csv df) => (Ok df, w)
  end.

(** [print(prefix + str(x))] *)
Definition print (prefix : string) (x : R) : M unit := λ w,
  (Ok tt, {| files := files w;
             stdout := stdout w ++ [(prefix, x)];
             random_state := random_state w |}).

(** ** The loaders *)

Definition smiles_col : string := "SMILES".
Definition thermal_col : string :=
  "rate of thermal isomerisation from Z-E in s-1".
Definition e_iso_pi_col : string := "E isomer pi-pi* wavelength in nm".
Definition e_iso_n_col : string := "E isomer n-pi* wavelength in nm".
Definition z_iso_pi_col : string := "Z isomer pi-pi* wavelength in nm".
Definition z_iso_n_col : string := "Z isomer n-pi* wavelength in nm".

Definition named_smiles : string := "C12=CC=CC=C1CCC3=CC=CC=C3/N=N\2".

Definition load_thermal_data (path : string) : M (list cell * list cell) :=
  df ← read_csv path;
  smiles_list ← lift (df_column df smiles_col);
  thermal_vals ← lift (df_column df thermal_col);
  let smiles_list := slice_to 65 smiles_list in
  let thermal_vals := slice_to 65 thermal_vals in
  mret (smiles_list, thermal_vals).

Definition load_e_iso_pi_data (path : string) : M (list cell * list cell) :=
  df ← read_csv path;
  smiles_list ← lift (df_column df smiles_col);
  smiles_list ← lift (list_remove (Str named_smiles) smiles_list);
  e_iso_pi_vals ← lift (df_column df e_iso_pi_col);
  e_iso_pi_vals ← lift (np_delete1 e_iso_pi_vals 31);
  mret (smiles_list, e_iso_pi_vals).

Definition load_e_iso_n_data (path : string) : M (list cell * list cell) :=
  df ← read_csv path;
  smiles_list ← lift (df_column df smiles_col);
  let smiles_list :=
    slice 0 14 smiles_list ++ slice 15 38 smiles_list
      ++ slice_from 39 smiles_list in
  e_iso_n_vals ← lift (df_column df e_iso_n_col);
  e_iso_n_vals ← lift (np_delete e_iso_n_vals [14; 38]);
  mret (smiles_list, e_iso_n_vals).

(** In the concatenation that rebuilds [smiles_list] only the three element
    reads can raise; they are evaluated from left to right. *)
Definition load_z_iso_pi_data (path : string) : M (list cell * list cell) :=
  df ← read_csv path;
  smiles_list ← lift (df_column df smiles_col);
  s26 ← lift (getitem smiles_list 26);
  s33 ← lift (getitem smiles_list 33);
  s37 ← lift (getitem smiles_list 37);
  let smiles_list :=
    slice 0 12 smiles_list ++ slice 15 25 smiles_list ++ [s26]
      ++ slice 28 31 smiles_list ++ [s33] ++ [s37]
      ++ slice_from 42 smiles_list in
  z_iso_pi_vals ← lift (df_column df z_iso_pi_col);
  let selection := concatenate (arange 34 37) (arange 38 42) in
  let selection := concatenate (arange 31 33) selection in
  let selection := concatenate [27] selection in
  let selection := concatenate [25] selection in
  let selection := concatenate (arange 12 15) selection in
  z_iso_pi_vals ← lift (np_delete z_iso_pi_vals selection);
  mret (smiles_list, z_iso_pi_vals).

Definition load_z_iso_n_data (path : string) : M (list cell * list cell) :=
  df ← read_csv path;
  smiles_list ← lift (df_column df smiles_col);
  let smiles_list :=
    slice 0 12 smiles_list ++ slice 15 32 smiles_list
      ++ slice 33 41 smiles_list ++ slice_from 42 smiles_list in
  z_iso_n_vals ← lift (df_column df z_iso_n_col);
  z_iso_n_vals ← lift (np_delete z_iso_n_vals [12; 13; 14; 32; 41]);
  mret (smiles_list, z_iso_n_vals).

(** ** numpy arrays of numbers *)

(** One- and two-dimensional arrays. A two-dimensional array carries its
    number of columns, so that its shape is defined even without rows. *)
Inductive ndarray : Type :=
  | Arr1 (v : list R)
  | Arr2 (ncols : nat) (rows : list (list R)).

Definition shape (a : ndarray) : list nat :=
  match a with
  | Arr1 v => [length v]
  | Arr2 d rows => [length rows; d]
  end.

Definition ndim (a : ndarray) : nat := length (shape a).

(** Every row of a two-dimensional array has [ncols] entries. *)
Definition rectangular (a : ndarray) : bool :=
  match a with
  | Arr1 _ => true
  | Arr2 d rows => forallb (λ r, length r =? d) rows
  end.

Definition ravel (a : ndarray) : list R :=
  match a with
  | Arr1 v => v
  | Arr2 _ rows => concat rows
  end.

(** [a.reshape(-1, 1)] *)
Definition reshape_column (a : ndarray) : ndarray :=
  Arr2 1 ((λ x, [x]) <$> ravel a).

(** The builtin [sum]: starts from [0] and adds from the left. *)
Definition py_sum (l : list R) : R := foldl Rplus 0%R l.

(** ** sklearn.preprocessing.StandardScaler *)

Definition column (j : nat) (rows : list (list R)) : list R :=
  (λ r, nth j r 0%R) <$> rows.

Definition columns (d : nat) (rows : list (list R)) : list (list R) :=
  (λ j, column j rows) <$> seq 0 d.

Definition mean (l : list R) : R := (foldr Rplus 0 l / INR (length l))%R.

(** Population variance, as [np.var] with [ddof=0]. *)
Definition variance (l : list R) : R :=
  mean ((λ x, (x - mean l) ^ 2)%R <$> l).

Definition std (l : list R) : R := sqrt (variance l).

(** [np.finfo(np.float64).eps] *)
Definition eps : R := (/ 2 ^ 52)%R.

(** [_is_constant_feature(var, mean, n_samples)]: the variance does not
    exceed the error bound of the two-pass algorithm that computes it. *)
Definition is_constant_feature (var mean : R) (n_samples : nat) : bool :=
  let upper_bound :=
    (INR n_samples * eps * var + (INR n_samples * mean * eps) ^ 2)%R in
  if Rle_dec var upper_bound then true else false.

(** [_handle_zeros_in_scale(scale, constant_mask=constant_mask)]:
    [scale[constant_mask] = 1.0]. *)
Definition handle_zeros_in_scale (scale : list R) (constant_mask : list bool)
  : list R :=
  zip_with (λ s (c : bool), if c then 1%R else s) scale constant_mask.

(** The attributes set by [fit]. *)
Record fitted : Type := Fitted {
  mean_ : list R;
  var_ : list R;
  scale_ : list R
}.

(** A scaler object: [None] until it has been fitted. *)
Definition StandardScaler : Type := option fitted.

Definition new_StandardScaler : StandardScaler := None.

(** Input validation: a two-dimensional array with at least one sample and
    one feature. *)
Definition check_array (X : ndarray) : result (nat * list (list R)) :=
  match X with
  | Arr1 _ => Raise ValueError
  | Arr2 d rows =>
      if (length rows =? 0) || (d =? 0) then Raise ValueError
      else Ok (d, rows)
  end.

(** [mean_], [var_] and [scale_] of the columns of [n_samples] rows:
    [scale_] is the square root of [var_], set to one on the columns that
    are constant or indistinguishable from constant. *)
Definition fit_statistics (n_samples : nat) (cols : list (list R)) : fitted :=
  let mean_ := mean <$> cols in
  let var_ := variance <$> cols in
  let constant_mask :=
    zip_with (λ v m, is_constant_feature v m n_samples) var_ mean_ in
  {| mean_ := mean_;
     var_ := var_;
     scale_ := handle_zeros_in_scale (sqrt <$> var_) constant_mask |}.

Definition scaler_fit (X : ndarray) : result StandardScaler :=
  '(d, rows) ← check_array X;
  mret (Some (fit_statistics (length rows) (columns d rows))).

Definition scale_row (f : fitted) (r : list R) : list R :=
  zip_with (λ x ms, ((x - ms.1) / ms.2)%R) r (zip (mean_ f) (scale_ f)).

(** [s.transform(X)]: the input is validated, its number of columns must
    be the fitted one, then [X -= mean_; X /= scale_]. *)
Definition scaler_transform (s : StandardScaler) (X : ndarray)
  : result ndarray :=
  match s with
  | None => Raise NotFittedError
  | Some f =>
      '(d, rows) ← check_array X;
      if d =? length (mean_ f) then Ok (Arr2 d (scale_row f <$> rows))
      else Raise ValueError
  end.

(** numpy broadcasting of a vector of statistics over rows of [d] entries:
    a vector of [d] entries is used as it is, a vector of one entry is
    repeated, anything else raises. *)
Definition broadcast_to (d : nat) (v : list R) : result (list R) :=
  if length v =? d then Ok v
  else match v with
       | [x] => Ok (replicate d x)
       | _ => Raise ValueError
       end.

(** One row of [X *= scale_; X += mean_]. *)
Definition unscale_row (scale mean : list R) (r : list R) : list R :=
  zip_with Rplus (zip_with Rmult r scale) mean.

(** [s.inverse_transform(X)]: the input is validated, then
    [X *= scale_; X += mean_]. The number of columns is not compared with
    the fitted one: only broadcasting constrains it. *)
Definition scaler_inverse_transform (s : StandardScaler) (X : ndarray)
  : result ndarray :=
  match s with
  | None => Raise NotFittedError
  | Some f =>
      '(d, rows) ← check_array X;
      scale ← broadcast_to d (scale_ f);
      mean ← broadcast_to d (mean_ f);
      mret (Arr2 d (unscale_row scale mean <$> rows))
  end.

(** [s.fit_transform(X)] refits the object [s] and returns the transformed
    array: the refitted object and the array are both returned. *)
Definition scaler_fit_transform (s : StandardScaler) (X : ndarray)
  : result (StandardScaler * ndarray) :=
  s' ← scaler_fit X;
  X' ← scaler_transform s' X;
  mret (s', X').

(** ** sklearn.decomposition.PCA *)

(** The decomposition is computed by the library; [transform_data] only
    calls it. It is taken as an interface: a fitted model, the two calls
    made on it and the attribute read from it. Fitting may use the
    randomized solver, which draws from numpy's global generator: the fit
    reads the state of the generator and returns the state it leaves. *)
Class PCA : Type := {
  pca_model : Type;
  pca_fit_transform :
    rng_state → option nat → ndarray
    → result (pca_model * ndarray) * rng_state;
  pca_transform : pca_model → ndarray → result ndarray;
  explained_variance_ratio_ : pca_model → list R
}.

(** [PCA(n_components).fit_transform(X)] in the world. *)
Definition PCA_fit_transform `{sk : PCA} (n_components : option nat)
    (X : ndarray) : M (pca_model * ndarray) := λ w,
  let '(r, g) := pca_fit_transform (random_state w) n_components X in
  (r, {| files := files w; stdout := stdout w; random_state := g |}).

(** ** transform_data *)

(** The local variables of [transform_data] at its [return] statement. *)
Record frame : Type := Frame {
  x_scaler : StandardScaler;
  X_train_scaled : ndarray;
  X_test_scaled : ndarray;
  y_scaler : StandardScaler;
  y_train_scaled : ndarray;
  y_test_scaled : ndarray
}.

Section transform.
Context `{sk : PCA}.

Definition transform_data_frame
    (X_train y_train X_test y_test : ndarray)
    (n_components : option nat) (use_pca : bool) : M frame :=
  let x_scaler := new_StandardScaler in
  '(x_scaler, X_train_scaled) ← lift (scaler_fit_transform x_scaler X_train);
  X_test_scaled ← lift (scaler_transform x_scaler X_test);
  let y_scaler := new_StandardScaler in
  '(y_scaler, y_train_scaled) ←
    lift (scaler_fit_transform y_scaler (reshape_column y_train));
  y_test_scaled ← lift (scaler_transform y_scaler (reshape_column y_test));
  '(X_train_scaled, X_test_scaled) ←
    (if use_pca then
       '(pca, X_train_scaled) ←
         PCA_fit_transform n_components X_train_scaled;
       _ ← print "Fraction of variance retained is: "
             (py_sum (explained_variance_ratio_ pca));
       X_test_scaled ← lift (pca_transform pca X_test_scaled);
       mret (X_train_scaled, X_test_scaled)
     else mret (X_train_scaled, X_test_scaled));
  mret {| x_scaler := x_scaler;
          X_train_scaled := X_train_scaled;
          X_test_scaled := X_test_scaled;
          y_scaler := y_scaler;
          y_train_scaled := y_train_scaled;
          y_test_scaled := y_test_scaled |}.

(** The returned tuple
    [X_train_scaled, y_train_scaled, X_test_scaled, y_test_scaled, y_scaler]. *)
Definition transform_data
    (X_train y_train X_test y_test : ndarray)
    (n_components : option nat) (use_pca : bool)
  : M (ndarray * ndarray * ndarray * ndarray * StandardScaler) :=
  fr ← transform_data_frame X_train y_train X_test y_test
         n_components use_pca;
  mret (X_train_scaled fr, y_train_scaled fr,
        X_test_scaled fr, y_test_scaled fr, y_scaler fr).
End transform.

(** ** Vocabulary of the properties *)

(** The five properties a loader exists for, each with its loader, its
    column and the number of rows its hard-coded positions need. *)
Inductive property : Type :=
  | Thermal
  | E_iso_pi
  | E_iso_n
  | Z_iso_pi
  | Z_iso_n.

Definition loader (p : property) : string → M (list cell * list cell) :=
  match p with
  | Thermal => load_thermal_data
  | E_iso_pi => load_e_iso_pi_data
  | E_iso_n => load_e_iso_n_data
  | Z_iso_pi => load_z_iso_pi_data
  | Z_iso_n => load_z_iso_n_data
  end.

Definition property_col (p : property) : string :=
  match p with
  | Thermal => thermal_col
  | E_iso_pi => e_iso_pi_col
  | E_iso_n => e_iso_n_col
  | Z_iso_pi => z_iso_pi_col
  | Z_iso_n => z_iso_n_col
  end.

Definition rows_needed (p : property) : nat :=
  match p with
  | Thermal => 0
  | E_iso_pi => 32
  | E_iso_n => 39
  | Z_iso_pi => 42
  | Z_iso_n => 42
  end.

(** The elements of [l] at the positions [idx], in the order of [idx]. *)
Definition rows_at {A} (l : list A) (idx : list nat) : list A :=
  omap (λ i, l !! i) idx.

(** The positions left by deleting the positions [obj] from [n] rows. *)
Definition surviving (obj : list nat) (n : nat) : list nat :=
  filter (λ i, i ∉ obj) (seq 0 n).

(** The identifier positions kept and the target positions deleted by
    [load_z_iso_pi_data], as the specification lists them. *)
Definition z_iso_pi_kept (n : nat) : list nat :=
  seq 0 12 ++ seq 15 10 ++ [26] ++ seq 28 3 ++ [33] ++ [37]
    ++ seq 42 (n - 42).

Definition z_iso_pi_deleted : list nat :=
  [12; 13; 14; 25; 27; 31; 32; 34; 35; 36; 38; 39; 40; 41].

(** A computation of [M] that neither reads nor writes the world. *)
Definition pure_M {A} (m : M A) : Prop := ∃ r, ∀ w, m w = (r, w).

(** ** Example tables *)

(** Straight-chain alkanes [C], [CC], [CCC], ... as identifiers, and the
    row number as measured value. *)
Fixpoint carbons (i : nat) : string :=
  match i with
  | 0 => "C"
  | S i => String.append "C" (carbons i)
  end.

Definition alkane (i : nat) : cell := Str (carbons i).

Definition alkanes (start len : nat) : list cell := alkane <$> seq start len.

Definition numbered (len : nat) : list cell :=
  (λ i, Num (inject_Z (Z.of_nat i))) <$> seq 0 len.

Definition table (col : string) (smiles vals : list cell) : DataFrame :=
  <[smiles_col := smiles]> (<[col := vals]> ∅).

Definition on_disk (path : string) (f : file) : world :=
  {| files := {[ path := f ]}; stdout := []; random_state := [] |}.

(** 32 rows, the named identifier in row 0. *)
Definition named_first_smiles : list cell :=
  Str named_smiles :: alkanes 1 31.

Definition named_first : DataFrame :=
  table e_iso_pi_col named_first_smiles (numbered 32).

(** 33 rows, the named identifier in rows 31 and 32. *)
Definition named_twice_smiles : list cell :=
  alkanes 0 31 ++ [Str named_smiles; Str named_smiles].

Definition named_twice : DataFrame :=
  table e_iso_pi_col named_twice_smiles (numbered 33).

(** 70 rows without the named identifier. *)
Definition unnamed (col : string) : DataFrame :=
  table col (alkanes 0 70) (numbered 70).

(** ** Example arrays *)

(** A decomposition whose fit always fails; [transform_data] does not call
    it when [use_pca] is false. *)
Definition failing_PCA : PCA :=
  {| pca_model := unit;
     pca_fit_transform := λ g _ _, (Raise LinAlgError, g);
     pca_transform := λ _ _, Raise LinAlgError;
     explained_variance_ratio_ := λ _, [] |}.

Definition X_train_ex : ndarray := Arr2 1 [[0%R]; [2%R]].
Definition y_train_ex : ndarray := Arr1 [1%R; 3%R].
Definition X_test_ex : ndarray := Arr2 1 [[1%R]].
Definition y_test_ex : ndarray := Arr1 [2%R].

Definition empty_world : world :=
  {| files := ∅; stdout := []; random_state := [] |}.

(** The scale fitted for a column: one when the column is constant or
    indistinguishable from constant, its standard deviation otherwise. *)
Definition column_scale (c : list R) : R :=
  if is_constant_feature (variance c) (mean c) (length c) then 1%R else std c.

(** ** Vocabulary of the further properties *)

(** The positions of the table whose targets a loader returns, for a table
    of [n] rows: the slice bound and the deleted positions of each loader. *)
Definition kept_positions (p : property) (n : nat) : list nat :=
  match p with
  | Thermal => seq 0 (min 65 n)
  | E_iso_pi => surviving [31] n
  | E_iso_n => surviving [14; 38] n
  | Z_iso_pi => surviving z_iso_pi_deleted n
  | Z_iso_n => surviving [12; 13; 14; 32; 41] n
  end.

(** The number of rows a loader returns from a table of [n] rows. *)
Definition returned_rows (p : property) (n : nat) : nat :=
  match p with
  | Thermal => min 65 n
  | E_iso_pi => n - 1
  | E_iso_n => n - 2
  | Z_iso_pi => n - 14
  | Z_iso_n => n - 5
  end.

(** The number of valid molecules stated in the docstring of a loader. *)
Definition documented_molecules (p : property) : option nat :=
  match p with
  | Thermal => None
  | E_iso_pi => Some 97
  | E_iso_n => Some 96
  | Z_iso_pi => Some 84
  | Z_iso_n => Some 93
  end.

(** * Properties *)

(** ** Lists, slices and masks *)

Section list_facts.
Context {A : Type}.
Implicit Types (l arr : list A) (idx obj : list nat) (keep : list bool).

Lemma length_slice lo hi l :
  lo ≤ hi → hi ≤ length l → length (slice lo hi l) = hi - lo.
Proof.
  intros Hlo Hhi. unfold slice. rewrite length_take, length_drop. lia.
Qed.

Lemma length_slice_from lo l : length (slice_from lo l) = length l - lo.
Proof. apply length_drop. Qed.

Lemma rows_at_app l idx1 idx2 :
  rows_at l (idx1 ++ idx2) = rows_at l idx1 ++ rows_at l idx2.
Proof. apply omap_app. Qed.

Lemma rows_at_seq l k m : rows_at l (seq k m) = take m (drop k l).
Proof.
  revert k. induction m as [|m IH]; intros k; [by rewrite take_0|].
  unfold rows_at in *. cbn [seq omap list_omap].
  destruct (l !! k) as [x|] eqn:Hk.
  - rewrite (drop_S _ _ _ Hk). cbn. by rewrite IH.
  - apply lookup_ge_None in Hk. rewrite IH.
    rewrite !drop_ge by lia. by rewrite !take_nil.
Qed.

Lemma rows_at_slice l lo hi : rows_at l (arange lo hi) = slice lo hi l.
Proof. apply rows_at_seq. Qed.

Lemma rows_at_seq_to_end l k m :
  length l ≤ k + m → rows_at l (seq k m) = slice_from k l.
Proof.
  intros Hlen. rewrite rows_at_seq. apply take_ge.
  rewrite length_drop. lia.
Qed.

Lemma rows_at_cons_S x l idx : rows_at (x :: l) (S <$> idx) = rows_at l idx.
Proof.
  unfold rows_at. induction idx as [|i idx IH]; [done|].
  cbn. by rewrite IH.
Qed.

Lemma filter_fmap_nat (P : nat → Prop) `{!∀ i, Decision (P i)}
    (f : nat → nat) idx :
  filter P (f <$> idx) = f <$> filter (λ i, P (f i)) idx.
Proof.
  induction idx as [|i idx IH]; [done|].
  rewrite fmap_cons. destruct (decide (P (f i))).
  - rewrite !filter_cons_True by done. by rewrite fmap_cons, IH.
  - by rewrite !filter_cons_False.
Qed.

Lemma filter_iff_Forall (P Q : nat → Prop)
    `{!∀ i, Decision (P i), !∀ i, Decision (Q i)} idx :
  Forall (λ i, P i ↔ Q i) idx → filter P idx = filter Q idx.
Proof.
  induction 1 as [|i idx Hi Hidx IH]; [done|].
  destruct (decide (P i)).
  - rewrite !filter_cons_True by naive_solver. by rewrite IH.
  - rewrite !filter_cons_False by naive_solver. done.
Qed.

Lemma filter_all (P : nat → Prop) `{!∀ i, Decision (P i)} idx :
  Forall P idx → filter P idx = idx.
Proof.
  induction 1 as [|i idx Hi Hidx IH]; [done|].
  rewrite filter_cons_True by done. by rewrite IH.
Qed.

Lemma rows_at_cons_0 x l idx :
  rows_at (x :: l) (0 :: idx) = x :: rows_at (x :: l) idx.
Proof. done. Qed.

Lemma mask_select_rows keep arr :
  length keep = length arr →
  mask_select keep arr
  = rows_at arr (filter (λ i, keep !! i = Some true) (seq 0 (length arr))).
Proof.
  revert arr. induction keep as [|k keep IH]; intros [|x arr] Hlen;
    try done.
  cbn [length seq mask_select]. rewrite <- fmap_S_seq.
  injection Hlen as Hlen. specialize (IH arr Hlen).
  destruct k.
  - rewrite filter_cons_True by done.
    rewrite filter_fmap_nat, rows_at_cons_0, rows_at_cons_S.
    by f_equal.
  - rewrite filter_cons_False by done.
    rewrite filter_fmap_nat, rows_at_cons_S. done.
Qed.

Lemma cleared_mask_lookup obj n i :
  foldr (λ i keep, <[i:=false]> keep) (replicate n true) obj !! i
    = Some true
  ↔ i < n ∧ i ∉ obj.
Proof.
  induction obj as [|j obj IH]; cbn [foldr].
  - rewrite lookup_replicate. split; [intros [_ ?] | intros [? _]].
    + split; [done | apply not_elem_of_nil].
    + done.
  - rewrite list_lookup_insert_Some, IH, not_elem_of_cons. naive_solver.
Qed.

Lemma cleared_mask_length obj n :
  length (foldr (λ i keep, <[i:=false]> keep) (replicate n true) obj) = n.
Proof.
  induction obj as [|j obj IH]; cbn [foldr].
  - apply length_replicate.
  - by rewrite length_insert.
Qed.

(** [np.delete] with in-bounds indices keeps exactly the rows at the
    surviving positions, in order. *)
Lemma np_delete_rows arr obj :
  Forall (λ i, i < length arr) obj →
  np_delete arr obj = Ok (rows_at arr (surviving obj (length arr))).
Proof.
  intros Hin. unfold np_delete.
  replace (forallb _ obj) with true; cycle 1.
  { symmetry. apply forallb_forall. intros i Hi.
    apply Nat.ltb_lt. rewrite Forall_forall in Hin. apply Hin.
    by apply list_elem_of_In. }
  cbn zeta. f_equal.
  rewrite mask_select_rows by apply cleared_mask_length.
  f_equal. unfold surviving.
  apply filter_iff_Forall. apply Forall_seq. intros i Hi.
  rewrite cleared_mask_lookup. naive_solver lia.
Qed.

Lemma np_delete_out_of_bounds arr obj i :
  i ∈ obj → length arr ≤ i → np_delete arr obj = Raise IndexError.
Proof.
  intros Hi Hlen. unfold np_delete.
  destruct (forallb _ obj) eqn:Hall; [|done].
  rewrite forallb_forall in Hall.
  apply list_elem_of_In, Hall, Nat.ltb_lt in Hi. lia.
Qed.
End list_facts.

Lemma surviving_split obj k n :
  Forall (λ i, i < k) obj → k ≤ n →
  surviving obj n = surviving obj k ++ seq k (n - k).
Proof.
  intros Hobj Hk. unfold surviving.
  replace n with (k + (n - k)) at 1 by lia.
  rewrite seq_app, filter_app. f_equal.
  apply filter_all, Forall_seq. intros i Hi Hin.
  rewrite Forall_forall in Hobj. apply Hobj in Hin. lia.
Qed.

(** ** [list.remove] *)

Lemma py_eq_Str c s : py_eq c (Str s) = true ↔ c = Str s.
Proof.
  destruct c as [t| |]; cbn; [|done..].
  rewrite String.eqb_eq. split; congruence.
Qed.

Lemma py_eq_Str_false c s : py_eq c (Str s) = false ↔ c ≠ Str s.
Proof. rewrite <- py_eq_Str. by destruct (py_eq c (Str s)). Qed.

Lemma list_remove_first s l1 l2 :
  Str s ∉ l1 → list_remove (Str s) (l1 ++ Str s :: l2) = Ok (l1 ++ l2).
Proof.
  induction l1 as [|y l1 IH]; intros Hnotin; cbn.
  - by rewrite String.eqb_refl.
  - apply not_elem_of_cons in Hnotin as [Hy Hl1].
    rewrite (proj2 (py_eq_Str_false y s)) by congruence.
    by rewrite IH.
Qed.

Lemma list_remove_absent s l :
  Str s ∉ l → list_remove (Str s) l = Raise ValueError.
Proof.
  induction l as [|y l IH]; intros Hnotin; cbn; [done|].
  apply not_elem_of_cons in Hnotin as [Hy Hl].
  rewrite (proj2 (py_eq_Str_false y s)) by congruence.
  by rewrite IH.
Qed.

Lemma first_occurrence s (l : list cell) :
  Str s ∈ l → ∃ l1 l2, l = l1 ++ Str s :: l2 ∧ Str s ∉ l1.
Proof.
  induction l as [|y l IH]; intros Hin; [by apply elem_of_nil in Hin|].
  destruct (py_eq y (Str s)) eqn:Hy.
  - apply py_eq_Str in Hy as ->. exists [], l. split; [done|].
    apply not_elem_of_nil.
  - apply py_eq_Str_false in Hy.
    apply elem_of_cons in Hin as [Heq|Hin]; [congruence|].
    destruct (IH Hin) as (l1 & l2 & -> & Hl1).
    exists (y :: l1), l2. split; [done|].
    apply not_elem_of_cons. split; [congruence | done].
Qed.

(** ** Running the monad *)

Lemma run_read_csv {B} path df (k : DataFrame → M B) w :
  files w !! path = Some (Csv df) → (read_csv path ≫= k) w = k df w.
Proof. intros Hf. unfold mbind, M_bind, read_csv. by rewrite Hf. Qed.

Lemma run_lift_Ok {A B} (r : result A) a (k : A → M B) w :
  r = Ok a → (lift r ≫= k) w = k a w.
Proof. by intros ->. Qed.

Lemma run_lift_Raise {A B} (r : result A) e (k : A → M B) w :
  r = Raise e → (lift r ≫= k) w = (Raise e, w).
Proof. by intros ->. Qed.

Lemma df_column_Some df name c : df !! name = Some c → df_column df name = Ok c.
Proof. unfold df_column. by intros ->. Qed.

(** ** What each loader returns *)

Section loaders_run.
Variables (w : world) (path : string) (df : DataFrame).
Variables (smiles vals : list cell).
Hypothesis Hfile : files w !! path = Some (Csv df).
Hypothesis Hsmiles : df !! smiles_col = Some smiles.

Lemma load_thermal_data_run :
  df !! thermal_col = Some vals →
  load_thermal_data path w = (Ok (take 65 smiles, take 65 vals), w).
Proof.
  intros Hvals. unfold load_thermal_data.
  rewrite (run_read_csv _ _ _ _ Hfile).
  rewrite (run_lift_Ok _ _ _ _ (df_column_Some _ _ _ Hsmiles)).
  rewrite (run_lift_Ok _ _ _ _ (df_column_Some _ _ _ Hvals)).
  done.
Qed.

Lemma load_e_iso_pi_data_run l1 l2 :
  smiles = l1 ++ Str named_smiles :: l2 → Str named_smiles ∉ l1 →
  df !! e_iso_pi_col = Some vals → 31 < length vals →
  load_e_iso_pi_data path w
  = (Ok (l1 ++ l2, take 31 vals ++ drop 32 vals), w).
Proof.
  intros Hsplit Hl1 Hvals Hlen. unfold load_e_iso_pi_data.
  rewrite (run_read_csv _ _ _ _ Hfile).
  rewrite (run_lift_Ok _ _ _ _ (df_column_Some _ _ _ Hsmiles)).
  rewrite (run_lift_Ok _ (l1 ++ l2)); cycle 1.
  { rewrite Hsplit. by apply list_remove_first. }
  rewrite (run_lift_Ok _ _ _ _ (df_column_Some _ _ _ Hvals)).
  rewrite (run_lift_Ok _ (take 31 vals ++ drop 32 vals)); [done|].
  unfold np_delete1. by rewrite decide_True.
Qed.

Lemma load_e_iso_pi_data_absent :
  Str named_smiles ∉ smiles →
  load_e_iso_pi_data path w = (Raise ValueError, w).
Proof.
  intros Hnotin. unfold load_e_iso_pi_data.
  rewrite (run_read_csv _ _ _ _ Hfile).
  rewrite (run_lift_Ok _ _ _ _ (df_column_Some _ _ _ Hsmiles)).
  apply run_lift_Raise. by apply list_remove_absent.
Qed.

Lemma load_e_iso_n_data_run :
  df !! e_iso_n_col = Some vals → 39 ≤ length vals →
  load_e_iso_n_data path w
  = (Ok (slice 0 14 smiles ++ slice 15 38 smiles ++ slice_from 39 smiles,
         slice 0 14 vals ++ slice 15 38 vals ++ slice_from 39 vals), w).
Proof.
  intros Hvals Hlen. unfold load_e_iso_n_data.
  rewrite (run_read_csv _ _ _ _ Hfile).
  rewrite (run_lift_Ok _ _ _ _ (df_column_Some _ _ _ Hsmiles)).
  cbn zeta.
  rewrite (run_lift_Ok _ _ _ _ (df_column_Some _ _ _ Hvals)).
  erewrite run_lift_Ok; [done|].
  rewrite np_delete_rows by (repeat constructor; lia).
  rewrite (surviving_split _ 39) by (repeat constructor; lia).
  change (surviving [14; 38] 39) with (arange 0 14 ++ arange 15 38).
  rewrite !rows_at_app, !rows_at_slice, rows_at_seq_to_end by lia.
  by rewrite <- !app_assoc.
Qed.

Lemma load_z_iso_n_data_run :
  df !! z_iso_n_col = Some vals → 42 ≤ length vals →
  load_z_iso_n_data path w
  = (Ok (slice 0 12 smiles ++ slice 15 32 smiles ++ slice 33 41 smiles
           ++ slice_from 42 smiles,
         slice 0 12 vals ++ slice 15 32 vals ++ slice 33 41 vals
           ++ slice_from 42 vals), w).
Proof.
  intros Hvals Hlen. unfold load_z_iso_n_data.
  rewrite (run_read_csv _ _ _ _ Hfile).
  rewrite (run_lift_Ok _ _ _ _ (df_column_Some _ _ _ Hsmiles)).
  cbn zeta.
  rewrite (run_lift_Ok _ _ _ _ (df_column_Some _ _ _ Hvals)).
  erewrite run_lift_Ok; [done|].
  rewrite np_delete_rows by (repeat constructor; lia).
  rewrite (surviving_split _ 42) by (repeat constructor; lia).
  change (surviving [12; 13; 14; 32; 41] 42)
    with (arange 0 12 ++ arange 15 32 ++ arange 33 41).
  rewrite !rows_at_app, !rows_at_slice, rows_at_seq_to_end by lia.
  by rewrite <- !app_assoc.
Qed.

Lemma getitem_lt {A} (l : list A) i :
  i < length l → ∃ x, l !! i = Some x ∧ getitem l i = Ok x.
Proof.
  intros Hi. destruct (lookup_lt_is_Some_2 l i Hi) as [x Hx].
  exists x. unfold getitem. by rewrite Hx.
Qed.

Lemma rows_at_singleton {A} (l : list A) i x :
  l !! i = Some x → rows_at l [i] = [x].
Proof. unfold rows_at. cbn. by intros ->. Qed.

Lemma load_z_iso_pi_data_run :
  df !! z_iso_pi_col = Some vals →
  38 ≤ length smiles → 42 ≤ length vals →
  load_z_iso_pi_data path w
  = (Ok (rows_at smiles (z_iso_pi_kept (length smiles)),
         rows_at vals (surviving z_iso_pi_deleted (length vals))), w).
Proof.
  intros Hvals Hs Hlen. unfold load_z_iso_pi_data.
  destruct (getitem_lt smiles 26) as (s26 & H26 & G26); [lia|].
  destruct (getitem_lt smiles 33) as (s33 & H33 & G33); [lia|].
  destruct (getitem_lt smiles 37) as (s37 & H37 & G37); [lia|].
  rewrite (run_read_csv _ _ _ _ Hfile).
  rewrite (run_lift_Ok _ _ _ _ (df_column_Some _ _ _ Hsmiles)).
  rewrite (run_lift_Ok _ _ _ _ G26), (run_lift_Ok _ _ _ _ G33),
    (run_lift_Ok _ _ _ _ G37).
  cbn zeta.
  rewrite (run_lift_Ok _ _ _ _ (df_column_Some _ _ _ Hvals)).
  change (concatenate (arange 12 15) _) with z_iso_pi_deleted.
  rewrite (run_lift_Ok _ _ _ _ (np_delete_rows vals z_iso_pi_deleted
    ltac:(repeat constructor; lia))).
  unfold z_iso_pi_kept.
  rewrite !rows_at_app, (rows_at_seq_to_end smiles 42) by lia.
  rewrite !rows_at_seq.
  rewrite (rows_at_singleton _ _ _ H26), (rows_at_singleton _ _ _ H33),
    (rows_at_singleton _ _ _ H37).
  done.
Qed.
End loaders_run.

(** Past the last hard-coded position the kept positions are all the
    positions not deleted. *)
Lemma z_iso_pi_kept_surviving n :
  42 ≤ n → z_iso_pi_kept n = surviving z_iso_pi_deleted n.
Proof.
  intros Hn.
  rewrite (surviving_split _ 42) by (repeat constructor; lia).
  unfold z_iso_pi_kept. by rewrite !app_assoc.
Qed.

(** ** Positions and alignment *)

Lemma surviving_lt obj n : Forall (λ i, i < n) (surviving obj n).
Proof.
  apply Forall_forall. intros i Hi. unfold surviving in Hi.
  apply list_elem_of_filter in Hi as [_ Hi]. apply elem_of_seq in Hi. lia.
Qed.

Lemma rows_at_lookup {A} (l : list A) idx i :
  Forall (λ j, j < length l) idx →
  rows_at l idx !! i = idx !! i ≫= λ j, l !! j.
Proof.
  intros Hidx. revert i. induction Hidx as [|j idx Hj Hidx IH]; intros i.
  { done. }
  destruct (lookup_lt_is_Some_2 l j Hj) as [x Hx].
  unfold rows_at in *. cbn [omap list_omap]. rewrite Hx.
  destruct i as [|i]; cbn; [done | apply IH].
Qed.

Lemma rows_at_length {A} (l : list A) idx :
  Forall (λ j, j < length l) idx → length (rows_at l idx) = length idx.
Proof.
  induction 1 as [|j idx Hj Hidx IH]; [done|].
  destruct (lookup_lt_is_Some_2 l j Hj) as [x Hx].
  unfold rows_at in *. cbn [omap list_omap]. rewrite Hx. cbn. by rewrite IH.
Qed.

Lemma zip_delete {A B} (a : list A) (b : list B) i :
  zip (delete i a) (delete i b) = delete i (zip a b).
Proof.
  revert a b. induction i as [|i IH]; intros [|x a] [|y b]; cbn; try done.
  - by destruct a.
  - by rewrite IH.
Qed.

(** ** Purity of the loaders *)

Lemma pure_ret {A} (a : A) : pure_M (mret a).
Proof. by exists (Ok a). Qed.

Lemma pure_lift {A} (r : result A) : pure_M (lift r).
Proof. by exists r. Qed.

Lemma pure_bind {A B} (m : M A) (k : A → M B) :
  pure_M m → (∀ a, pure_M (k a)) → pure_M (m ≫= k).
Proof.
  intros [r Hm] Hk. destruct r as [a|e].
  - destruct (Hk a) as [r Hr]. exists r. intros w.
    unfold mbind, M_bind. by rewrite Hm, Hr.
  - exists (Raise e). intros w. unfold mbind, M_bind. by rewrite Hm.
Qed.

#[local] Ltac pure_steps :=
  repeat first
    [ apply pure_ret | apply pure_lift | apply pure_bind; [|intros ?]
    | progress cbn zeta ].

(** After the table is read, a loader is a pure computation on it. *)
Lemma loader_reads_once p path :
  ∃ k : DataFrame → result (list cell * list cell),
    ∀ w, loader p path w = (read_csv path ≫= λ df, lift (k df)) w.
Proof.
  assert (Hchoice : ∀ body : DataFrame → M (list cell * list cell),
            (∀ df, pure_M (body df)) →
            ∃ k, ∀ w, (read_csv path ≫= body) w
                      = (read_csv path ≫= λ df, lift (k df)) w).
  { intros body Hbody.
    exists (λ df, (body df (on_disk path Malformed)).1).
    intros w. unfold mbind, M_bind, read_csv.
    destruct (files w !! path) as [[|df]|]; try done.
    destruct (Hbody df) as [r Hr]. by rewrite !Hr. }
  destruct p; apply Hchoice; intros df; pure_steps.
Qed.

(** ** The primitives and the loaders on small inputs *)

Example slice_clamps : slice 1 5 [10; 20; 30] = [20; 30].
Proof. reflexivity. Qed.

Example np_delete_ex : np_delete [10; 20; 30; 40] [3; 1; 1] = Ok [10; 30].
Proof. reflexivity. Qed.

Example np_delete_raises : np_delete [10; 20] [0; 2] = Raise IndexError.
Proof. reflexivity. Qed.

Example np_delete1_ex : np_delete1 [10; 20; 30] 1 = Ok [10; 30].
Proof. reflexivity. Qed.

Example np_delete1_raises : np_delete1 [10; 20; 30] 3 = Raise IndexError.
Proof. reflexivity. Qed.

Example list_remove_ex :
  list_remove (Str "CC") [Str "C"; Str "CC"; NaN; Str "CC"]
  = Ok [Str "C"; NaN; Str "CC"].
Proof. reflexivity. Qed.

Example list_remove_raises :
  list_remove (Str "CC") [Str "C"; NaN] = Raise ValueError.
Proof. reflexivity. Qed.

Example load_missing_file :
  load_thermal_data "photoswitches.csv" empty_world
  = (Raise FileNotFoundError, empty_world).
Proof. reflexivity. Qed.

Example load_missing_column :
  load_e_iso_n_data "photoswitches.csv"
    (on_disk "photoswitches.csv" (Csv (unnamed thermal_col)))
  = (Raise KeyError, on_disk "photoswitches.csv" (Csv (unnamed thermal_col))).
Proof. reflexivity. Qed.

Example load_too_few_rows :
  load_z_iso_n_data "photoswitches.csv"
    (on_disk "photoswitches.csv"
       (Csv (table z_iso_n_col (alkanes 0 41) (numbered 41))))
  = (Raise IndexError,
     on_disk "photoswitches.csv"
       (Csv (table z_iso_n_col (alkanes 0 41) (numbered 41)))).
Proof. reflexivity. Qed.

Example load_e_iso_n_data_ex :
  load_e_iso_n_data "photoswitches.csv"
    (on_disk "photoswitches.csv"
       (Csv (table e_iso_n_col (alkanes 0 40) (numbered 40))))
  = (Ok (alkanes 0 14 ++ alkanes 15 23 ++ alkanes 39 1,
         rows_at (numbered 40) (seq 0 14 ++ seq 15 23 ++ [39])),
     on_disk "photoswitches.csv"
       (Csv (table e_iso_n_col (alkanes 0 40) (numbered 40)))).
Proof. reflexivity. Qed.

(** ** The loaders: claims of the specification *)

(** C1. For a table that has the [SMILES] column and the property column
    with equal row counts, enough rows for every hard-coded position and,
    for [e_iso_pi], the named identifier in the [SMILES] column, each of the
    five loaders returns an identifier sequence and a target sequence of
    equal length: it removes as many positions from the one as from the
    other. *)
Theorem loaders_equal_length (p : property) (w : world) (path : string)
    (df : DataFrame) (smiles vals : list cell) :
  files w !! path = Some (Csv df) →
  df !! smiles_col = Some smiles →
  df !! property_col p = Some vals →
  length smiles = length vals →
  rows_needed p ≤ length smiles →
  (p = E_iso_pi → Str named_smiles ∈ smiles) →
  ∃ identifiers targets,
    loader p path w = (Ok (identifiers, targets), w)
    ∧ length identifiers = length targets
    ∧ length identifiers ≤ length smiles
    ∧ length smiles - length identifiers = length vals - length targets.
Proof.
  intros Hfile Hsmiles Hvals Hlen Hrows Hnamed.
  destruct p; cbn in Hvals, Hrows; cbn [loader].
  - eexists _, _. split; [by eapply load_thermal_data_run|].
    rewrite !length_take. lia.
  - destruct (first_occurrence _ _ (Hnamed eq_refl)) as (l1 & l2 & Hsplit & Hl1).
    eexists _, _. split.
    { eapply load_e_iso_pi_data_run; [done..|lia]. }
    rewrite Hsplit, !length_app in *. cbn [length] in *.
    rewrite length_take, length_drop. lia.
  - eexists _, _. split.
    { eapply load_e_iso_n_data_run; [done..|lia]. }
    rewrite !length_app, !length_slice, !length_slice_from by lia. lia.
  - eexists _, _. split.
    { eapply load_z_iso_pi_data_run; [done..|lia|lia]. }
    rewrite <- Hlen, <- z_iso_pi_kept_surviving by lia.
    rewrite !rows_at_length.
    + unfold z_iso_pi_kept. rewrite !length_app, !length_seq. cbn. lia.
    + rewrite <- Hlen, z_iso_pi_kept_surviving by lia. apply surviving_lt.
    + rewrite z_iso_pi_kept_surviving by lia. apply surviving_lt.
  - eexists _, _. split.
    { eapply load_z_iso_n_data_run; [done..|lia]. }
    rewrite !length_app, !length_slice, !length_slice_from by lia. lia.
Qed.

Lemma loaders_equal_length_witness :
  ∃ identifiers targets,
    loader E_iso_pi "photoswitches.csv"
      (on_disk "photoswitches.csv" (Csv named_twice))
    = (Ok (identifiers, targets),
       on_disk "photoswitches.csv" (Csv named_twice))
    ∧ length identifiers = length targets
    ∧ length identifiers ≤ 33
    ∧ 33 - length identifiers = 33 - length targets.
Proof.
  apply (loaders_equal_length E_iso_pi
           (on_disk "photoswitches.csv" (Csv named_twice))
           "photoswitches.csv" named_twice
           named_twice_smiles
           (numbered 33)).
  - reflexivity.
  - reflexivity.
  - reflexivity.
  - reflexivity.
  - cbn. lia.
  - intros _. apply (list_elem_of_lookup_2 _ 31). reflexivity.
Defined.

(** C2. On a table of at least 42 rows [load_z_iso_pi_data] keeps the
    identifier positions [0:12), [15:25), {26}, [28:31), {33}, {37},
    [42:end) in that order and deletes the target positions
    {12,13,14,25,27,31,32,34,35,36,38,39,40,41}; the two sets of positions
    are complementary, so the identifier and the target at one output index
    come from the same row of the table. *)
Theorem load_z_iso_pi_data_positions (w : world) (path : string)
    (df : DataFrame) (smiles vals : list cell) :
  files w !! path = Some (Csv df) →
  df !! smiles_col = Some smiles →
  df !! z_iso_pi_col = Some vals →
  length smiles = length vals →
  42 ≤ length smiles →
  ∃ identifiers targets,
    load_z_iso_pi_data path w = (Ok (identifiers, targets), w)
    ∧ identifiers = rows_at smiles (z_iso_pi_kept (length smiles))
    ∧ targets = rows_at vals (surviving z_iso_pi_deleted (length vals))
    ∧ (∀ i, i < length smiles →
         (i ∈ z_iso_pi_kept (length smiles) ↔ i ∉ z_iso_pi_deleted))
    ∧ (∀ i, i < length identifiers →
         ∃ j, z_iso_pi_kept (length smiles) !! i = Some j
              ∧ j < length smiles
              ∧ identifiers !! i = smiles !! j
              ∧ targets !! i = vals !! j).
Proof.
  intros Hfile Hsmiles Hvals Hlen Hrows.
  assert (Hkept : z_iso_pi_kept (length smiles)
                  = surviving z_iso_pi_deleted (length smiles))
    by (apply z_iso_pi_kept_surviving; lia).
  assert (Hin : Forall (λ j, j < length smiles)
                  (z_iso_pi_kept (length smiles)))
    by (rewrite Hkept; apply surviving_lt).
  eexists _, _. split; [|split; [reflexivity|split; [reflexivity|split]]].
  - eapply load_z_iso_pi_data_run; [done..|lia|lia].
  - intros i Hi. rewrite Hkept. unfold surviving.
    rewrite list_elem_of_filter, elem_of_seq. split; [tauto|].
    intros Hnot. split; [done | lia].
  - intros i Hi. rewrite rows_at_length in Hi by done.
    destruct (lookup_lt_is_Some_2 _ _ Hi) as [j Hj].
    exists j. split; [done|].
    assert (j < length smiles) as Hjn.
    { rewrite Forall_forall in Hin. apply Hin.
      by eapply list_elem_of_lookup_2. }
    split; [done|].
    rewrite <- Hlen, <- Hkept.
    rewrite !rows_at_lookup, Hj by (by rewrite <- ?Hlen). done.
Qed.

Lemma load_z_iso_pi_data_positions_witness :
  ∃ identifiers targets,
    load_z_iso_pi_data "photoswitches.csv"
      (on_disk "photoswitches.csv" (Csv (unnamed z_iso_pi_col)))
    = (Ok (identifiers, targets),
       on_disk "photoswitches.csv" (Csv (unnamed z_iso_pi_col)))
    ∧ identifiers = rows_at (alkanes 0 70) (z_iso_pi_kept 70)
    ∧ targets = rows_at (numbered 70) (surviving z_iso_pi_deleted 70)
    ∧ (∀ i, i < 70 → (i ∈ z_iso_pi_kept 70 ↔ i ∉ z_iso_pi_deleted))
    ∧ (∀ i, i < length identifiers →
         ∃ j, z_iso_pi_kept 70 !! i = Some j
              ∧ j < 70
              ∧ identifiers !! i = alkanes 0 70 !! j
              ∧ targets !! i = numbered 70 !! j).
Proof.
  apply (load_z_iso_pi_data_positions
           (on_disk "photoswitches.csv" (Csv (unnamed z_iso_pi_col)))
           "photoswitches.csv" (unnamed z_iso_pi_col)
           (alkanes 0 70) (numbered 70)).
  - reflexivity.
  - reflexivity.
  - reflexivity.
  - reflexivity.
  - cbn. lia.
Defined.

(** C4. On a table of at least 65 rows [load_thermal_data] returns the
    first 65 identifiers and the first 65 target values, in file order; no
    row at position 65 or beyond is returned. *)
Theorem load_thermal_data_first_65 (w : world) (path : string)
    (df : DataFrame) (smiles vals : list cell) :
  files w !! path = Some (Csv df) →
  df !! smiles_col = Some smiles →
  df !! thermal_col = Some vals →
  length smiles = length vals →
  65 ≤ length smiles →
  ∃ identifiers targets,
    load_thermal_data path w = (Ok (identifiers, targets), w)
    ∧ identifiers = rows_at smiles (seq 0 65)
    ∧ targets = rows_at vals (seq 0 65)
    ∧ length identifiers = 65 ∧ length targets = 65
    ∧ (∀ i, i < 65 →
         identifiers !! i = smiles !! i ∧ targets !! i = vals !! i)
    ∧ (∀ i, 65 ≤ i → identifiers !! i = None ∧ targets !! i = None).
Proof.
  intros Hfile Hsmiles Hvals Hlen Hrows.
  exists (take 65 smiles), (take 65 vals).
  split; [by eapply load_thermal_data_run|].
  rewrite !rows_at_seq, !drop_0, !length_take.
  split; [done|]. split; [done|]. split; [lia|]. split; [lia|]. split.
  - intros i Hi. by rewrite !lookup_take_lt.
  - intros i Hi. split; apply lookup_ge_None; rewrite length_take; lia.
Qed.

Lemma load_thermal_data_first_65_witness :
  ∃ identifiers targets,
    load_thermal_data "photoswitches.csv"
      (on_disk "photoswitches.csv" (Csv (unnamed thermal_col)))
    = (Ok (identifiers, targets),
       on_disk "photoswitches.csv" (Csv (unnamed thermal_col)))
    ∧ identifiers = rows_at (alkanes 0 70) (seq 0 65)
    ∧ targets = rows_at (numbered 70) (seq 0 65)
    ∧ length identifiers = 65 ∧ length targets = 65
    ∧ (∀ i, i < 65 →
         identifiers !! i = alkanes 0 70 !! i
         ∧ targets !! i = numbered 70 !! i)
    ∧ (∀ i, 65 ≤ i → identifiers !! i = None ∧ targets !! i = None).
Proof.
  apply (load_thermal_data_first_65
           (on_disk "photoswitches.csv" (Csv (unnamed thermal_col)))
           "photoswitches.csv" (unnamed thermal_col)
           (alkanes 0 70) (numbered 70)).
  - reflexivity.
  - reflexivity.
  - reflexivity.
  - reflexivity.
  - cbn. lia.
Defined.

(** C3, as stated, fails: on a table of 32 rows whose row 0 holds the named
    identifier, the identifier removed is that of row 0 and the target
    removed is that of row 31; no single row was removed from both
    sequences. *)
Lemma load_e_iso_pi_data_misaligned :
  files (on_disk "photoswitches.csv" (Csv named_first)) !! "photoswitches.csv"
  = Some (Csv named_first)
  ∧ named_first !! smiles_col = Some named_first_smiles
  ∧ named_first !! e_iso_pi_col = Some (numbered 32)
  ∧ Str named_smiles ∈ named_first_smiles
  ∧ 31 < length (numbered 32)
  ∧ load_e_iso_pi_data "photoswitches.csv"
      (on_disk "photoswitches.csv" (Csv named_first))
    = (Ok (delete 0 named_first_smiles, delete 31 (numbered 32)),
       on_disk "photoswitches.csv" (Csv named_first))
  ∧ ¬ (∃ i, load_e_iso_pi_data "photoswitches.csv"
              (on_disk "photoswitches.csv" (Csv named_first))
            = (Ok (delete i named_first_smiles, delete i (numbered 32)),
               on_disk "photoswitches.csv" (Csv named_first))).
Proof.
  assert (Hrun : load_e_iso_pi_data "photoswitches.csv"
                   (on_disk "photoswitches.csv" (Csv named_first))
                 = (Ok (delete 0 named_first_smiles, delete 31 (numbered 32)),
                    on_disk "photoswitches.csv" (Csv named_first)))
    by reflexivity.
  repeat split; try reflexivity.
  - apply list_elem_of_here.
  - cbn. lia.
  - intros [i Hi]. rewrite Hrun in Hi.
    injection Hi as Hs Hv. destruct i as [|i].
    + vm_compute in Hv. discriminate Hv.
    + cbn in Hs. discriminate Hs.
Qed.

(** C3, amended. On a table whose [SMILES] column contains the named
    identifier and whose property column has more than 31 rows,
    [load_e_iso_pi_data] removes one element from each sequence: the first
    row holding the named identifier from the identifiers and position 31
    from the targets; everything else is returned unchanged and in order.
    The removed target belongs to the removed identifier's row when the
    named identifier first occurs at position 31. *)
Theorem load_e_iso_pi_data_removes (w : world) (path : string)
    (df : DataFrame) (smiles vals : list cell) :
  files w !! path = Some (Csv df) →
  df !! smiles_col = Some smiles →
  df !! e_iso_pi_col = Some vals →
  Str named_smiles ∈ smiles →
  31 < length vals →
  ∃ i,
    smiles !! i = Some (Str named_smiles)
    ∧ (∀ j, j < i → smiles !! j ≠ Some (Str named_smiles))
    ∧ load_e_iso_pi_data path w
      = (Ok (delete i smiles, delete 31 vals), w)
    ∧ length (delete i smiles) = length smiles - 1
    ∧ length (delete 31 vals) = length vals - 1
    ∧ (i = 31 →
       zip (delete i smiles) (delete 31 vals) = delete 31 (zip smiles vals)).
Proof.
  intros Hfile Hsmiles Hvals Hnamed Hlen.
  destruct (first_occurrence _ _ Hnamed) as (l1 & l2 & Hsplit & Hl1).
  exists (length l1). subst smiles.
  split; [by rewrite list_lookup_middle|]. split.
  { intros j Hj Hat. apply Hl1.
    rewrite lookup_app_l in Hat by done. by eapply list_elem_of_lookup_2. }
  rewrite delete_middle, (delete_take_drop vals). split.
  { eapply load_e_iso_pi_data_run; done. }
  rewrite !length_app, length_take, length_drop. cbn [length].
  split; [lia|]. split; [lia|].
  intros Hi. rewrite <- (delete_take_drop vals), <- zip_delete.
  by rewrite <- Hi, delete_middle.
Qed.

Lemma load_e_iso_pi_data_removes_witness :
  ∃ i,
    named_twice_smiles !! i
    = Some (Str named_smiles)
    ∧ (∀ j, j < i →
         named_twice_smiles !! j
         ≠ Some (Str named_smiles))
    ∧ load_e_iso_pi_data "photoswitches.csv"
        (on_disk "photoswitches.csv" (Csv named_twice))
      = (Ok (delete i named_twice_smiles,
             delete 31 (numbered 33)),
         on_disk "photoswitches.csv" (Csv named_twice))
    ∧ length (delete i named_twice_smiles)
      = 33 - 1
    ∧ length (delete 31 (numbered 33)) = 33 - 1
    ∧ (i = 31 →
       zip (delete i named_twice_smiles)
           (delete 31 (numbered 33))
       = delete 31
           (zip named_twice_smiles
                (numbered 33))).
Proof.
  apply (load_e_iso_pi_data_removes
           (on_disk "photoswitches.csv" (Csv named_twice))
           "photoswitches.csv" named_twice
           named_twice_smiles
           (numbered 33)).
  - reflexivity.
  - reflexivity.
  - reflexivity.
  - apply (list_elem_of_lookup_2 _ 31). reflexivity.
  - cbn. lia.
Defined.

(** C8. A loader called on two worlds that hold the same contents at the
    path returns the same result in both and leaves each world as it was;
    in particular a second call after a first returns the same sequences. *)
Theorem loader_idempotent (p : property) (path : string) (w1 w2 : world) :
  files w1 !! path = files w2 !! path →
  ∃ r, loader p path w1 = (r, w1) ∧ loader p path w2 = (r, w2).
Proof.
  intros Hsame. destruct (loader_reads_once p path) as [k Hk].
  rewrite !Hk. unfold mbind, M_bind, read_csv, lift. rewrite <- Hsame.
  destruct (files w1 !! path) as [[|df]|]; eauto.
Qed.

Lemma loader_idempotent_witness :
  ∃ r,
    loader Z_iso_n "photoswitches.csv"
      (on_disk "photoswitches.csv" (Csv (unnamed z_iso_n_col)))
    = (r, on_disk "photoswitches.csv" (Csv (unnamed z_iso_n_col)))
    ∧ loader Z_iso_n "photoswitches.csv"
        {| files := <["other.csv" := Malformed]>
                      {[ "photoswitches.csv" := Csv (unnamed z_iso_n_col) ]};
           stdout := [("Fraction of variance retained is: ", 1%R)];
           random_state := [1%N] |}
      = (r, {| files := <["other.csv" := Malformed]>
                          {[ "photoswitches.csv"
                             := Csv (unnamed z_iso_n_col) ]};
               stdout := [("Fraction of variance retained is: ", 1%R)];
           random_state := [1%N] |}).
Proof.
  apply (loader_idempotent Z_iso_n "photoswitches.csv"
           (on_disk "photoswitches.csv" (Csv (unnamed z_iso_n_col)))
           {| files := <["other.csv" := Malformed]>
                         {[ "photoswitches.csv"
                            := Csv (unnamed z_iso_n_col) ]};
              stdout := [("Fraction of variance retained is: ", 1%R)];
           random_state := [1%N] |}).
  reflexivity.
Defined.

(** C9. With a [SMILES] column that does not contain the named identifier
    [load_e_iso_pi_data] raises [ValueError]. When the named identifier
    occurs, also more than once, only its first occurrence is removed from
    the identifiers, and the target at position 31 is deleted once. *)
Theorem load_e_iso_pi_data_named_row (w : world) (path : string)
    (df : DataFrame) (smiles : list cell) :
  files w !! path = Some (Csv df) →
  df !! smiles_col = Some smiles →
  (Str named_smiles ∉ smiles →
   load_e_iso_pi_data path w = (Raise ValueError, w))
  ∧ (∀ l1 l2 vals,
       smiles = l1 ++ Str named_smiles :: l2 →
       Str named_smiles ∉ l1 →
       df !! e_iso_pi_col = Some vals →
       31 < length vals →
       load_e_iso_pi_data path w = (Ok (l1 ++ l2, delete 31 vals), w)
       ∧ length (l1 ++ l2) = length smiles - 1
       ∧ length (delete 31 vals) = length vals - 1
       ∧ (Str named_smiles ∈ l2 → Str named_smiles ∈ l1 ++ l2)).
Proof.
  intros Hfile Hsmiles. split.
  - intros Hnotin. by eapply load_e_iso_pi_data_absent.
  - intros l1 l2 vals Hsplit Hl1 Hvals Hlen.
    rewrite (delete_take_drop vals). split.
    { eapply load_e_iso_pi_data_run; done. }
    rewrite Hsplit, !length_app, length_take, length_drop. cbn [length].
    split; [lia|]. split; [lia|].
    intros Hl2. apply elem_of_app. by right.
Qed.

Lemma load_e_iso_pi_data_named_row_witness :
  load_e_iso_pi_data "photoswitches.csv"
    (on_disk "photoswitches.csv" (Csv (unnamed e_iso_pi_col)))
  = (Raise ValueError,
     on_disk "photoswitches.csv" (Csv (unnamed e_iso_pi_col)))
  ∧ load_e_iso_pi_data "photoswitches.csv"
      (on_disk "photoswitches.csv" (Csv named_twice))
    = (Ok (alkanes 0 31 ++ [Str named_smiles], delete 31 (numbered 33)),
       on_disk "photoswitches.csv" (Csv named_twice))
  ∧ Str named_smiles ∈ alkanes 0 31 ++ [Str named_smiles].
Proof.
  assert (Hfresh : ∀ start len, Str named_smiles ∉ alkanes start len).
  { intros start len Hin. unfold alkanes in Hin.
    apply list_elem_of_fmap in Hin as (i & Hi & _).
    injection Hi as Hi. destruct i as [|[|i]]; discriminate Hi. }
  split.
  - apply (load_e_iso_pi_data_named_row
             (on_disk "photoswitches.csv" (Csv (unnamed e_iso_pi_col)))
             "photoswitches.csv" (unnamed e_iso_pi_col) (alkanes 0 70));
      [reflexivity | reflexivity | apply Hfresh].
  - destruct (load_e_iso_pi_data_named_row
                (on_disk "photoswitches.csv" (Csv named_twice))
                "photoswitches.csv" named_twice
                named_twice_smiles
                eq_refl eq_refl) as [_ Hfirst].
    destruct (Hfirst (alkanes 0 31) [Str named_smiles] (numbered 33))
      as (Hrun & _ & _ & Hkept).
    + reflexivity.
    + apply Hfresh.
    + reflexivity.
    + cbn. lia.
    + split; [exact Hrun | apply Hkept, list_elem_of_here].
Defined.

(** ** The scaler *)

Lemma sum_nonneg (l : list R) :
  Forall (λ x, (0 <= x)%R) l → (0 <= foldr Rplus 0 l)%R.
Proof.
  induction 1 as [|x l Hx Hl IH]; cbn; lra.
Qed.

Lemma variance_nonneg (l : list R) : (0 <= variance l)%R.
Proof.
  unfold variance, mean. rewrite length_fmap.
  destruct l as [|a l].
  { cbn. unfold Rdiv. lra. }
  apply Rmult_le_pos.
  - apply sum_nonneg, Forall_fmap, Forall_true. intros x. cbn.
    apply pow2_ge_0.
  - left. apply Rinv_0_lt_compat, lt_0_INR. cbn. lia.
Qed.

(** The scale fitted for one column, as [fit_statistics] computes it. *)
Lemma scale_fit_statistics n cols :
  scale_ (fit_statistics n cols)
  = (λ c, if is_constant_feature (variance c) (mean c) n
          then 1%R else sqrt (variance c)) <$> cols.
Proof.
  cbn. unfold handle_zeros_in_scale.
  induction cols as [|c cols IH]; [done|].
  cbn. by rewrite <- IH.
Qed.

Lemma is_constant_feature_false_pos var mean n :
  (0 <= var)%R → is_constant_feature var mean n = false → (0 < var)%R.
Proof.
  unfold is_constant_feature. destruct (Rle_dec _ _) as [|Hnot]; [done|].
  intros Hvar _. destruct Hvar as [Hpos| <-]; [done|].
  exfalso. apply Hnot.
  rewrite Rmult_0_r, Rplus_0_l. apply pow2_ge_0.
Qed.

Lemma is_constant_feature_zero mean n : is_constant_feature 0 mean n = true.
Proof.
  unfold is_constant_feature. destruct (Rle_dec _ _) as [|Hnot]; [done|].
  exfalso. apply Hnot.
  rewrite Rmult_0_r, Rplus_0_l. apply pow2_ge_0.
Qed.

Lemma column_scale_nonzero n c :
  (if is_constant_feature (variance c) (mean c) n
   then 1%R else sqrt (variance c)) ≠ 0%R.
Proof.
  destruct (is_constant_feature _ _ _) eqn:Hconst; [lra|].
  apply is_constant_feature_false_pos in Hconst; [|apply variance_nonneg].
  apply Rgt_not_eq, Rlt_gt, sqrt_lt_R0, Hconst.
Qed.

Lemma fit_statistics_scale_nonzero n cols :
  Forall (λ s, s ≠ 0%R) (scale_ (fit_statistics n cols)).
Proof.
  rewrite scale_fit_statistics. apply Forall_fmap, Forall_true. intros c.
  apply column_scale_nonzero.
Qed.

Lemma fit_statistics_lengths n cols :
  length (scale_ (fit_statistics n cols)) = length (mean_ (fit_statistics n cols)).
Proof. rewrite scale_fit_statistics. cbn. by rewrite !length_fmap. Qed.

Lemma check_array_Ok X d rows :
  check_array X = Ok (d, rows) → X = Arr2 d rows ∧ rows ≠ [] ∧ d ≠ 0.
Proof.
  destruct X as [v|d' rows']; cbn; [done|].
  destruct rows' as [|r rows']; cbn; [done|].
  destruct d' as [|d']; cbn; [done|].
  intros [= <- <-]. done.
Qed.

Lemma check_array_Arr2 d rows :
  rows ≠ [] → d ≠ 0 → check_array (Arr2 d rows) = Ok (d, rows).
Proof. intros Hrows Hd. cbn. by destruct rows, d. Qed.

Lemma scaler_fit_Ok X s :
  scaler_fit X = Ok s →
  ∃ d rows, X = Arr2 d rows ∧ rows ≠ [] ∧ d ≠ 0
            ∧ s = Some (fit_statistics (length rows) (columns d rows)).
Proof.
  unfold scaler_fit. destruct (check_array X) as [[d rows]|] eqn:Hcheck;
    cbn; [|done].
  intros [= <-]. apply check_array_Ok in Hcheck as (-> & Hrows & Hd).
  by exists d, rows.
Qed.

Lemma scaler_transform_Ok s X X' :
  scaler_transform s X = Ok X' →
  ∃ f d rows, s = Some f ∧ X = Arr2 d rows ∧ rows ≠ [] ∧ d ≠ 0
              ∧ d = length (mean_ f) ∧ X' = Arr2 d (scale_row f <$> rows).
Proof.
  unfold scaler_transform. destruct s as [f|]; [|done].
  destruct (check_array X) as [[d rows]|] eqn:Hcheck; cbn; [|done].
  apply check_array_Ok in Hcheck as (-> & Hrows & Hd).
  destruct (d =? length (mean_ f)) eqn:Hfeat; [|done].
  apply Nat.eqb_eq in Hfeat. intros [= <-]. by exists f, d, rows.
Qed.

Lemma scaler_fit_transform_Ok s0 X s X' :
  scaler_fit_transform s0 X = Ok (s, X') →
  scaler_fit X = Ok s ∧ scaler_transform s X = Ok X'.
Proof.
  unfold scaler_fit_transform.
  destruct (scaler_fit X) as [s1|]; cbn; [|done].
  destruct (scaler_transform s1 X) as [X1|] eqn:Htr; cbn; [|done].
  by intros [= <- <-].
Qed.

Lemma scaler_transform_shape s X X' :
  scaler_transform s X = Ok X' → shape X' = shape X.
Proof.
  intros Happly.
  apply scaler_transform_Ok in Happly
    as (f & d & rows & _ & -> & _ & _ & _ & ->).
  cbn. by rewrite length_fmap.
Qed.

Lemma length_column j rows : length (column j rows) = length rows.
Proof. unfold column. by rewrite length_fmap. Qed.

Lemma length_columns d rows : length (columns d rows) = d.
Proof. unfold columns. by rewrite length_fmap, length_seq. Qed.

Lemma broadcast_to_same d v : length v = d → broadcast_to d v = Ok v.
Proof. intros <-. unfold broadcast_to. by rewrite Nat.eqb_refl. Qed.

(** Dividing by a nonzero scale after subtracting the mean is undone by
    multiplying by the scale and adding the mean, and conversely. *)
Lemma unscale_scale_lists (m s r : list R) :
  Forall (λ x, x ≠ 0%R) s →
  length r ≤ length m → length r ≤ length s →
  unscale_row s m (zip_with (λ x p, ((x - p.1) / p.2)%R) r (zip m s)) = r.
Proof.
  intros Hs. revert m r. unfold unscale_row.
  induction Hs as [|y s Hy Hs IH]; intros [|a m] [|x r] Hm Hr;
    cbn in *; try done; try lia.
  f_equal; [by field | apply IH; lia].
Qed.

Lemma scale_unscale_lists (m s r : list R) :
  Forall (λ x, x ≠ 0%R) s →
  length r ≤ length m → length r ≤ length s →
  zip_with (λ x p, ((x - p.1) / p.2)%R) (unscale_row s m r) (zip m s) = r.
Proof.
  intros Hs. revert m r. unfold unscale_row.
  induction Hs as [|y s Hy Hs IH]; intros [|a m] [|x r] Hm Hr;
    cbn in *; try done; try lia.
  f_equal; [by field | apply IH; lia].
Qed.

Lemma unscale_scale_row f r :
  Forall (λ s, s ≠ 0%R) (scale_ f) →
  length (scale_ f) = length (mean_ f) →
  length r = length (mean_ f) →
  unscale_row (scale_ f) (mean_ f) (scale_row f r) = r.
Proof.
  intros Hscale Hlen Hr. unfold scale_row.
  apply unscale_scale_lists; [done|lia..].
Qed.

Lemma scale_unscale_row f r :
  Forall (λ s, s ≠ 0%R) (scale_ f) →
  length (scale_ f) = length (mean_ f) →
  length r = length (mean_ f) →
  scale_row f (unscale_row (scale_ f) (mean_ f) r) = r.
Proof.
  intros Hscale Hlen Hr. unfold scale_row.
  apply scale_unscale_lists; [done|lia..].
Qed.

Lemma rectangular_Forall d rows :
  rectangular (Arr2 d rows) = true ↔ Forall (λ r, length r = d) rows.
Proof.
  cbn. rewrite forallb_forall, Forall_forall. split.
  - intros H r Hr. apply Nat.eqb_eq, H. by apply list_elem_of_In.
  - intros H r Hr. apply Nat.eqb_eq, H. by apply list_elem_of_In.
Qed.

(** On an array with the fitted number of columns the inverse transform
    applies the fitted scale and mean entry by entry. *)
Lemma scaler_inverse_transform_same f d rows :
  rows ≠ [] → d ≠ 0 →
  length (mean_ f) = d → length (scale_ f) = d →
  scaler_inverse_transform (Some f) (Arr2 d rows)
  = Ok (Arr2 d (unscale_row (scale_ f) (mean_ f) <$> rows)).
Proof.
  intros Hrows Hd Hm Hs. unfold scaler_inverse_transform.
  rewrite check_array_Arr2 by done. cbn [mbind result_bind].
  by rewrite !broadcast_to_same.
Qed.

(** With the statistics of a fit, the inverse transform undoes the
    transform on every rectangular array. *)
Lemma scaler_inverse_of_transform n cols X X' :
  rectangular X = true →
  scaler_transform (Some (fit_statistics n cols)) X = Ok X' →
  scaler_inverse_transform (Some (fit_statistics n cols)) X' = Ok X.
Proof.
  intros Hrect Htr.
  apply scaler_transform_Ok in Htr
    as (f & d & rows & [= <-] & -> & Hrows & Hd & Hfeat & ->).
  rewrite scaler_inverse_transform_same;
    [|by destruct rows|done|done|by rewrite fit_statistics_lengths].
  do 2 f_equal. rewrite <- list_fmap_compose.
  transitivity ((λ r : list R, r) <$> rows); [|apply list_fmap_id].
  apply Forall_fmap_ext_1. apply rectangular_Forall in Hrect.
  eapply Forall_impl; [exact Hrect|]. intros r Hr. cbn beta in *.
  apply unscale_scale_row;
    [apply fit_statistics_scale_nonzero | apply fit_statistics_lengths
    | congruence].
Qed.

(** The inverse transform of a fitted scaler undoes its transform on the
    array it was fitted on. *)
Lemma scaler_round_trip s0 X s X' :
  rectangular X = true →
  scaler_fit_transform s0 X = Ok (s, X') →
  scaler_inverse_transform s X' = Ok X.
Proof.
  intros Hrect Hft. apply scaler_fit_transform_Ok in Hft as [Hfit Htr].
  apply scaler_fit_Ok in Hfit as (d & rows & -> & Hrows & Hd & ->).
  by apply scaler_inverse_of_transform.
Qed.

Lemma length_mean_fit_statistics n cols :
  length (mean_ (fit_statistics n cols)) = length cols.
Proof. cbn. by rewrite length_fmap. Qed.

Lemma scaler_fit_transform_Arr2 s0 d rows :
  rows ≠ [] → d ≠ 0 →
  scaler_fit_transform s0 (Arr2 d rows)
  = Ok (Some (fit_statistics (length rows) (columns d rows)),
        Arr2 d (scale_row (fit_statistics (length rows) (columns d rows))
                  <$> rows)).
Proof.
  intros Hrows Hd.
  unfold scaler_fit_transform, scaler_fit, scaler_transform.
  rewrite !check_array_Arr2 by done. cbn [mbind mret result_bind result_ret].
  by rewrite length_mean_fit_statistics, length_columns, Nat.eqb_refl.
Qed.

Lemma rectangular_reshape_column y : rectangular (reshape_column y) = true.
Proof.
  cbn. apply forallb_forall. intros r Hr.
  apply list_elem_of_In, list_elem_of_fmap in Hr as (x & -> & _). done.
Qed.

Lemma shape_reshape_column y : shape (reshape_column y) = [length (ravel y); 1].
Proof. cbn. by rewrite length_fmap. Qed.

Lemma ravel_reshape_column y : ravel (reshape_column y) = ravel y.
Proof.
  cbn. induction (ravel y) as [|x v IH]; cbn; by f_equal.
Qed.

(** ** [transform_data] *)

Section transform_facts.
Context `{sk : PCA}.
Implicit Types (X_train y_train X_test y_test : ndarray).
Implicit Types (n_components : option nat) (use_pca : bool).

(** What a successful run has computed. *)
Lemma transform_data_frame_Ok X_train y_train X_test y_test
    n_components use_pca w w' fr :
  transform_data_frame X_train y_train X_test y_test n_components use_pca w
  = (Ok fr, w') →
  ∃ Xs Xt,
    scaler_fit_transform new_StandardScaler X_train = Ok (x_scaler fr, Xs)
    ∧ scaler_transform (x_scaler fr) X_test = Ok Xt
    ∧ scaler_fit_transform new_StandardScaler (reshape_column y_train)
      = Ok (y_scaler fr, y_train_scaled fr)
    ∧ scaler_transform (y_scaler fr) (reshape_column y_test)
      = Ok (y_test_scaled fr)
    ∧ if use_pca
      then ∃ pca g,
             pca_fit_transform (random_state w) n_components Xs
             = (Ok (pca, X_train_scaled fr), g)
             ∧ pca_transform pca Xt = Ok (X_test_scaled fr)
             ∧ w' = {| files := files w;
                       stdout := stdout w
                         ++ [("Fraction of variance retained is: ",
                              py_sum (explained_variance_ratio_ pca))];
                       random_state := g |}
      else X_train_scaled fr = Xs ∧ X_test_scaled fr = Xt ∧ w' = w.
Proof.
  intros Hrun. unfold transform_data_frame in Hrun.
  unfold mbind, M_bind, lift, mret, M_ret in Hrun.
  destruct (scaler_fit_transform new_StandardScaler X_train)
    as [[xs Xs]|]; [|done].
  destruct (scaler_transform xs X_test) as [Xt|] eqn:HXt; [|done].
  destruct (scaler_fit_transform new_StandardScaler (reshape_column y_train))
    as [[ys Ys]|]; [|done].
  destruct (scaler_transform ys (reshape_column y_test)) as [Yt|] eqn:HYt;
    [|done].
  exists Xs, Xt. destruct use_pca.
  - unfold PCA_fit_transform in Hrun.
    destruct (pca_fit_transform (random_state w) n_components Xs)
      as [[[pca Xs']|] g]; [|done].
    unfold print in Hrun.
    destruct (pca_transform pca Xt) as [Xt'|] eqn:Hpt; [|done].
    injection Hrun as <- <-. cbn. do 4 (split; [done|]). by exists pca, g.
  - injection Hrun as <- <-. done.
Qed.

(** The returned tuple is read off the frame. *)
Lemma transform_data_Ok X_train y_train X_test y_test n_components use_pca
    w w' Xs ys Xt yt sc :
  transform_data X_train y_train X_test y_test n_components use_pca w
  = (Ok (Xs, ys, Xt, yt, sc), w') ↔
  ∃ fr,
    transform_data_frame X_train y_train X_test y_test n_components use_pca w
    = (Ok fr, w')
    ∧ Xs = X_train_scaled fr ∧ ys = y_train_scaled fr
    ∧ Xt = X_test_scaled fr ∧ yt = y_test_scaled fr ∧ sc = y_scaler fr.
Proof.
  unfold transform_data, mbind, M_bind, mret, M_ret.
  destruct (transform_data_frame _ _ _ _ _ _ w) as [[fr|e] w1]; split.
  - intros [= <- <- <- <- <- <-]. by exists fr.
  - intros (fr' & [= <- <-] & -> & -> & -> & -> & ->). done.
  - done.
  - by intros (fr' & [=] & _).
Qed.

(** Without PCA the call returns on every well-shaped input: feature arrays
    with the same positive number of columns and at least one row, targets
    with at least one entry. *)
Lemma transform_data_returns d rows rows' y_train y_test n_components w :
  rows ≠ [] → rows' ≠ [] → d ≠ 0 → ravel y_train ≠ [] → ravel y_test ≠ [] →
  ∃ Xs ys Xt yt sc,
    transform_data (Arr2 d rows) y_train (Arr2 d rows') y_test
      n_components false w
    = (Ok (Xs, ys, Xt, yt, sc), w).
Proof.
  intros Hrows Hrows' Hd Hy Hy'.
  assert (Hfit : ∀ d0 rows0 rows1, rows0 ≠ [] → rows1 ≠ [] → d0 ≠ 0 →
            ∃ X0 X1,
              scaler_fit_transform new_StandardScaler (Arr2 d0 rows0)
              = Ok (Some (fit_statistics (length rows0) (columns d0 rows0)),
                    X0)
              ∧ scaler_transform
                  (Some (fit_statistics (length rows0) (columns d0 rows0)))
                  (Arr2 d0 rows1)
                = Ok X1).
  { intros d0 rows0 rows1 H0 H1 Hd0.
    rewrite scaler_fit_transform_Arr2 by done.
    unfold scaler_transform. rewrite check_array_Arr2 by done.
    cbn [mbind result_bind]. rewrite length_mean_fit_statistics.
    rewrite length_columns, Nat.eqb_refl. eauto. }
  destruct (Hfit d rows rows' Hrows Hrows' Hd) as (Xs & Xt & HXs & HXt).
  destruct (Hfit 1 ((λ x, [x]) <$> ravel y_train)
              ((λ x, [x]) <$> ravel y_test)) as (ys & yt & Hys & Hyt).
  { by destruct (ravel y_train). }
  { by destruct (ravel y_test). }
  { done. }
  eexists Xs, ys, Xt, yt, _.
  unfold transform_data, transform_data_frame, mbind, M_bind, lift, mret,
    M_ret, reshape_column.
  rewrite HXs, HXt, Hys, Hyt. reflexivity.
Qed.
End transform_facts.

(** ** [transform_data] on the example arrays *)

Lemma is_constant_feature_1 m :
  (Rabs m <= 2)%R → is_constant_feature 1 m 2 = false.
Proof.
  intros Hm. unfold is_constant_feature.
  destruct (Rle_dec _ _) as [Hle|]; [|done]. exfalso.
  assert (Hsq : ((INR 2 * m * eps) ^ 2 <= (4 * eps) ^ 2)%R).
  { apply pow_maj_Rabs. cbn [INR]. unfold eps in *.
    rewrite !Rabs_mult, (Rabs_pos_eq (1 + 1)), (Rabs_pos_eq (/ 2 ^ 52));
      [|left; apply Rinv_0_lt_compat; lra | lra].
    apply Rmult_le_compat_r; [left; apply Rinv_0_lt_compat; lra | lra]. }
  unfold eps in *. cbn [INR] in *. lra.
Qed.

Lemma fit_statistics_X_train_ex :
  fit_statistics 2 (columns 1 [[0%R]; [2%R]])
  = {| mean_ := [1%R]; var_ := [1%R]; scale_ := [1%R] |}.
Proof.
  assert (Hm : mean [0%R; 2%R] = 1%R) by (unfold mean; cbn; lra).
  assert (Hv : variance [0%R; 2%R] = 1%R).
  { unfold variance. rewrite Hm. unfold mean. cbn. lra. }
  unfold fit_statistics, columns, column, handle_zeros_in_scale.
  cbn -[is_constant_feature mean variance].
  rewrite Hm, Hv, is_constant_feature_1, sqrt_1; [done|].
  rewrite Rabs_pos_eq; lra.
Qed.

Lemma fit_statistics_y_train_ex :
  fit_statistics 2 (columns 1 [[1%R]; [3%R]])
  = {| mean_ := [2%R]; var_ := [1%R]; scale_ := [1%R] |}.
Proof.
  assert (Hm : mean [1%R; 3%R] = 2%R) by (unfold mean; cbn; lra).
  assert (Hv : variance [1%R; 3%R] = 1%R).
  { unfold variance. rewrite Hm. unfold mean. cbn. lra. }
  unfold fit_statistics, columns, column, handle_zeros_in_scale.
  cbn -[is_constant_feature mean variance].
  rewrite Hm, Hv, is_constant_feature_1, sqrt_1; [done|].
  rewrite Rabs_pos_eq; lra.
Qed.

Lemma y_train_ex_not_constant :
  is_constant_feature (variance (ravel y_train_ex)) (mean (ravel y_train_ex))
    (length (ravel y_train_ex))
  = false.
Proof.
  assert (Hm : mean [1%R; 3%R] = 2%R) by (unfold mean; cbn; lra).
  assert (Hv : variance [1%R; 3%R] = 1%R).
  { unfold variance. rewrite Hm. unfold mean. cbn. lra. }
  cbn [ravel y_train_ex length]. rewrite Hm, Hv.
  apply is_constant_feature_1. rewrite Rabs_pos_eq; lra.
Qed.

#[local] Ltac run_transform_data :=
  unfold transform_data, transform_data_frame, mbind, M_bind, lift, mret,
    M_ret;
  unfold scaler_fit_transform, scaler_fit, scaler_transform;
  cbn -[fit_statistics columns];
  rewrite fit_statistics_X_train_ex, fit_statistics_y_train_ex; cbn;
  repeat f_equal; lra.

Example transform_data_ex :
  transform_data (sk := failing_PCA) X_train_ex y_train_ex X_test_ex y_test_ex
    None false empty_world
  = (Ok (Arr2 1 [[(-1)%R]; [1%R]], Arr2 1 [[(-1)%R]; [1%R]],
         Arr2 1 [[0%R]], Arr2 1 [[0%R]],
         Some {| mean_ := [2%R]; var_ := [1%R]; scale_ := [1%R] |}),
     empty_world).
Proof. run_transform_data. Qed.


(** With [use_pca] set the failing decomposition makes the call raise. *)
Example transform_data_ex_pca :
  transform_data (sk := failing_PCA) X_train_ex y_train_ex X_test_ex y_test_ex
    (Some 1) true empty_world
  = (Raise LinAlgError, empty_world).
Proof. reflexivity. Qed.

(** ** [transform_data]: claims of the specification *)

Section transform_claims.
Context `{sk : PCA}.
Implicit Types (X_train y_train X_test y_test : ndarray).
Implicit Types (n_components : option nat) (use_pca : bool).


(** C6. For a one-dimensional [y_train], the target scaler returned by
    [transform_data] inverts its own transform: its inverse transform
    applied to the returned [y_train_scaled] gives back the values of
    [y_train], as a column and, flattened, as the vector itself. The scale
    is never zero (a zero deviation is replaced by one), so the equation
    holds for every [y_train] on which the call returns. *)
Theorem transform_data_round_trip X_train (v : list R) X_test y_test
    n_components use_pca (w w' : world) (Xs ys Xt yt : ndarray)
    (sc : StandardScaler) :
  transform_data X_train (Arr1 v) X_test y_test n_components use_pca w
  = (Ok (Xs, ys, Xt, yt, sc), w') →
  scaler_inverse_transform sc ys = Ok (reshape_column (Arr1 v))
  ∧ ravel <$> scaler_inverse_transform sc ys = Ok v.
Proof.
  intros Hrun.
  apply transform_data_Ok in Hrun as (fr & Hfr & -> & -> & -> & -> & ->).
  destruct (transform_data_frame_Ok _ _ _ _ _ _ _ _ _ Hfr)
    as (X0 & T0 & _ & _ & Hy & _ & _).
  apply scaler_round_trip in Hy; [|apply rectangular_reshape_column].
  rewrite Hy. split; [done|].
  cbn [fmap result_fmap]. f_equal. apply ravel_reshape_column.
Qed.

(** C10. The [y_train_scaled] and [y_test_scaled] returned by
    [transform_data] are two-dimensional arrays of shape [(n, 1)], where [n]
    is the number of entries of [y_train], respectively [y_test]; for
    one-dimensional inputs they differ from the inputs in shape. *)
Theorem transform_data_target_shape X_train y_train X_test y_test
    n_components use_pca (w w' : world) (Xs ys Xt yt : ndarray)
    (sc : StandardScaler) :
  transform_data X_train y_train X_test y_test n_components use_pca w
  = (Ok (Xs, ys, Xt, yt, sc), w') →
  shape ys = [length (ravel y_train); 1]
  ∧ shape yt = [length (ravel y_test); 1]
  ∧ ndim ys = 2 ∧ ndim yt = 2
  ∧ (ndim y_train = 1 → shape ys = shape y_train ++ [1])
  ∧ (ndim y_test = 1 → shape yt = shape y_test ++ [1]).
Proof.
  intros Hrun.
  apply transform_data_Ok in Hrun as (fr & Hfr & -> & -> & -> & -> & ->).
  destruct (transform_data_frame_Ok _ _ _ _ _ _ _ _ _ Hfr)
    as (X0 & T0 & _ & _ & Hy & Hyt & _).
  apply scaler_fit_transform_Ok in Hy as [_ Hy].
  apply scaler_transform_shape in Hy, Hyt.
  rewrite shape_reshape_column in Hy, Hyt.
  unfold ndim. rewrite Hy, Hyt. do 4 (split; [done|]).
  split.
  - destruct y_train as [v|d rows]; [done|]. intros [=].
  - destruct y_test as [v|d rows]; [done|]. intros [=].
Qed.
End transform_claims.


Lemma transform_data_round_trip_witness :
  scaler_inverse_transform
    (Some {| mean_ := [2%R]; var_ := [1%R]; scale_ := [1%R] |})
    (Arr2 1 [[(-1)%R]; [1%R]])
  = Ok (reshape_column (Arr1 [1%R; 3%R]))
  ∧ ravel <$> scaler_inverse_transform
                (Some {| mean_ := [2%R]; var_ := [1%R]; scale_ := [1%R] |})
                (Arr2 1 [[(-1)%R]; [1%R]])
    = Ok [1%R; 3%R].
Proof.
  apply (transform_data_round_trip (sk := failing_PCA)
           X_train_ex [1%R; 3%R] X_test_ex y_test_ex None false
           empty_world empty_world
           (Arr2 1 [[(-1)%R]; [1%R]]) _ (Arr2 1 [[0%R]]) (Arr2 1 [[0%R]])).
  apply transform_data_ex.
Defined.

Lemma transform_data_target_shape_witness :
  shape (Arr2 1 [[(-1)%R]; [1%R]]) = [length (ravel y_train_ex); 1]
  ∧ shape (Arr2 1 [[0%R]]) = [length (ravel y_test_ex); 1]
  ∧ ndim (Arr2 1 [[(-1)%R]; [1%R]]) = 2 ∧ ndim (Arr2 1 [[0%R]]) = 2
  ∧ (ndim y_train_ex = 1
     → shape (Arr2 1 [[(-1)%R]; [1%R]]) = shape y_train_ex ++ [1])
  ∧ (ndim y_test_ex = 1 → shape (Arr2 1 [[0%R]]) = shape y_test_ex ++ [1]).
Proof.
  apply (transform_data_target_shape (sk := failing_PCA)
           X_train_ex y_train_ex X_test_ex y_test_ex None false
           empty_world empty_world
           (Arr2 1 [[(-1)%R]; [1%R]]) _ (Arr2 1 [[0%R]]) _
           (Some {| mean_ := [2%R]; var_ := [1%R]; scale_ := [1%R] |})).
  apply transform_data_ex.
Defined.

(** * Further properties of the loaders *)

Lemma take_min_length {A} (l : list A) k : take (min k (length l)) l = take k l.
Proof.
  destruct (decide (k ≤ length l)).
  - by rewrite Nat.min_l.
  - rewrite Nat.min_r by lia. by rewrite !take_ge by lia.
Qed.

Lemma rows_at_zip {A B} (a : list A) (b : list B) idx :
  length a = length b →
  rows_at (zip a b) idx = zip (rows_at a idx) (rows_at b idx).
Proof.
  intros Hlen. unfold rows_at.
  induction idx as [|i idx IH]; [done|].
  cbn [omap list_omap]. rewrite lookup_zip_with.
  destruct (a !! i) as [x|] eqn:Ha; destruct (b !! i) as [y|] eqn:Hb; cbn.
  - by rewrite IH.
  - apply lookup_lt_Some in Ha. apply lookup_ge_None in Hb. lia.
  - apply lookup_ge_None in Ha. apply lookup_lt_Some in Hb. lia.
  - apply IH.
Qed.

Lemma rows_at_thermal {A} (l : list A) :
  rows_at l (kept_positions Thermal (length l)) = take 65 l.
Proof. cbn [kept_positions]. by rewrite rows_at_seq, drop_0, take_min_length. Qed.

Lemma rows_at_e_iso_pi {A} (l : list A) :
  31 < length l →
  rows_at l (kept_positions E_iso_pi (length l)) = take 31 l ++ drop 32 l.
Proof.
  intros Hlen. cbn [kept_positions].
  rewrite (surviving_split _ 32) by (repeat constructor; lia).
  change (surviving [31] 32) with (seq 0 31).
  by rewrite rows_at_app, rows_at_seq, drop_0, rows_at_seq_to_end by lia.
Qed.

Lemma rows_at_e_iso_n {A} (l : list A) :
  39 ≤ length l →
  rows_at l (kept_positions E_iso_n (length l))
  = slice 0 14 l ++ slice 15 38 l ++ slice_from 39 l.
Proof.
  intros Hlen. cbn [kept_positions].
  rewrite (surviving_split _ 39) by (repeat constructor; lia).
  change (surviving [14; 38] 39) with (arange 0 14 ++ arange 15 38).
  rewrite !rows_at_app, !rows_at_slice, rows_at_seq_to_end by lia.
  by rewrite <- !app_assoc.
Qed.

Lemma rows_at_z_iso_n {A} (l : list A) :
  42 ≤ length l →
  rows_at l (kept_positions Z_iso_n (length l))
  = slice 0 12 l ++ slice 15 32 l ++ slice 33 41 l ++ slice_from 42 l.
Proof.
  intros Hlen. cbn [kept_positions].
  rewrite (surviving_split _ 42) by (repeat constructor; lia).
  change (surviving [12; 13; 14; 32; 41] 42)
    with (arange 0 12 ++ arange 15 32 ++ arange 33 41).
  rewrite !rows_at_app, !rows_at_slice, rows_at_seq_to_end by lia.
  by rewrite <- !app_assoc.
Qed.

Lemma kept_positions_lt p n : Forall (λ i, i < n) (kept_positions p n).
Proof.
  destruct p; try apply surviving_lt.
  cbn [kept_positions]. apply Forall_seq. intros j Hj. lia.
Qed.

Lemma length_kept_positions p n :
  rows_needed p ≤ n → length (kept_positions p n) = returned_rows p n.
Proof.
  destruct p; cbn [rows_needed kept_positions returned_rows]; intros Hn.
  - by rewrite length_seq.
  - rewrite (surviving_split _ 32) by (repeat constructor; lia).
    rewrite length_app, length_seq.
    change (length (surviving [31] 32)) with 31. lia.
  - rewrite (surviving_split _ 39) by (repeat constructor; lia).
    rewrite length_app, length_seq.
    change (length (surviving [14; 38] 39)) with 37. lia.
  - rewrite (surviving_split _ 42) by (repeat constructor; lia).
    rewrite length_app, length_seq.
    change (length (surviving z_iso_pi_deleted 42)) with 28. lia.
  - rewrite (surviving_split _ 42) by (repeat constructor; lia).
    rewrite length_app, length_seq.
    change (length (surviving [12; 13; 14; 32; 41] 42)) with 37. lia.
Qed.

(** What a loader returns, in terms of the kept positions. *)
Lemma loader_run_positions p w path df smiles vals :
  files w !! path = Some (Csv df) →
  df !! smiles_col = Some smiles →
  df !! property_col p = Some vals →
  length smiles = length vals →
  rows_needed p ≤ length smiles →
  (p = E_iso_pi → Str named_smiles ∈ smiles) →
  ∃ identifiers,
    loader p path w
    = (Ok (identifiers, rows_at vals (kept_positions p (length vals))), w)
    ∧ length identifiers = returned_rows p (length smiles)
    ∧ (p ≠ E_iso_pi →
       identifiers = rows_at smiles (kept_positions p (length smiles))).
Proof.
  intros Hfile Hsmiles Hvals Hlen Hrows Hnamed.
  destruct p; cbn [rows_needed property_col loader] in *.
  - exists (rows_at smiles (kept_positions Thermal (length smiles))).
    split; [|split; [|done]].
    + rewrite !rows_at_thermal. by eapply load_thermal_data_run.
    + rewrite rows_at_thermal, length_take.
      cbn [returned_rows]. lia.
  - destruct (first_occurrence _ _ (Hnamed eq_refl))
      as (l1 & l2 & Hsplit & Hl1).
    exists (l1 ++ l2). split; [|split; [|done]].
    + rewrite rows_at_e_iso_pi by lia.
      eapply load_e_iso_pi_data_run; [done..|lia].
    + rewrite Hsplit, !length_app. cbn [length returned_rows]. lia.
  - exists (rows_at smiles (kept_positions E_iso_n (length smiles))).
    split; [|split; [|done]].
    + rewrite !rows_at_e_iso_n by lia.
      eapply load_e_iso_n_data_run; [done..|lia].
    + rewrite rows_at_length by apply kept_positions_lt.
      by apply length_kept_positions.
  - exists (rows_at smiles (kept_positions Z_iso_pi (length smiles))).
    split; [|split; [|done]].
    + cbn [kept_positions].
      rewrite <- (z_iso_pi_kept_surviving (length smiles)) by lia.
      eapply load_z_iso_pi_data_run; [done..|lia|lia].
    + rewrite rows_at_length by apply kept_positions_lt.
      by apply length_kept_positions.
  - exists (rows_at smiles (kept_positions Z_iso_n (length smiles))).
    split; [|split; [|done]].
    + rewrite !rows_at_z_iso_n by lia.
      eapply load_z_iso_n_data_run; [done..|lia].
    + rewrite rows_at_length by apply kept_positions_lt.
      by apply length_kept_positions.
Qed.

Lemma rows_at_elem_of {A} (l : list A) idx j x :
  j ∈ idx → l !! j = Some x → x ∈ rows_at l idx.
Proof.
  intros Hj Hx. unfold rows_at. apply list_elem_of_omap. eauto.
Qed.

Lemma returned_rows_documented p k n :
  documented_molecules p = Some k → rows_needed p ≤ n →
  returned_rows p n = k ↔ n = 98.
Proof.
  destruct p; cbn; intros [= <-] Hn; lia.
Qed.

Lemma df_column_None df name : df !! name = None → df_column df name = Raise KeyError.
Proof. unfold df_column. by intros ->. Qed.

(** X1. The loaders for thermal, e_iso_n, z_iso_pi and z_iso_n keep
    identifiers and targets aligned: the returned pairs are the rows of the
    table at the kept positions, in order, so the identifier and the target
    at one output index come from the same row. *)
Theorem loaders_aligned (p : property) (w : world) (path : string)
    (df : DataFrame) (smiles vals : list cell) :
  p ≠ E_iso_pi →
  files w !! path = Some (Csv df) →
  df !! smiles_col = Some smiles →
  df !! property_col p = Some vals →
  length smiles = length vals →
  rows_needed p ≤ length smiles →
  ∃ identifiers targets,
    loader p path w = (Ok (identifiers, targets), w)
    ∧ zip identifiers targets
      = rows_at (zip smiles vals) (kept_positions p (length smiles))
    ∧ (∀ i, i < length identifiers →
         ∃ j, kept_positions p (length smiles) !! i = Some j
              ∧ identifiers !! i = smiles !! j
              ∧ targets !! i = vals !! j).
Proof.
  intros Hp Hfile Hsmiles Hvals Hlen Hrows.
  destruct (loader_run_positions p w path df smiles vals)
    as (ids & Hrun & Hcount & Hids); [done..|by intros ?|].
  specialize (Hids Hp). subst ids. rewrite <- Hlen in Hrun.
  eexists _, _. split; [exact Hrun|]. split.
  { by rewrite rows_at_zip. }
  intros i Hi.
  rewrite rows_at_length in Hi by apply kept_positions_lt.
  destruct (lookup_lt_is_Some_2 _ _ Hi) as [j Hj]. exists j.
  split; [done|].
  rewrite !rows_at_lookup, Hj;
    [done | rewrite <- Hlen; apply kept_positions_lt | apply kept_positions_lt].
Qed.

Lemma loaders_aligned_witness :
  ∃ identifiers targets,
    loader Z_iso_n "photoswitches.csv"
      (on_disk "photoswitches.csv" (Csv (unnamed z_iso_n_col)))
    = (Ok (identifiers, targets),
       on_disk "photoswitches.csv" (Csv (unnamed z_iso_n_col)))
    ∧ zip identifiers targets
      = rows_at (zip (alkanes 0 70) (numbered 70))
          (kept_positions Z_iso_n (length (alkanes 0 70)))
    ∧ (∀ i, i < length identifiers →
         ∃ j, kept_positions Z_iso_n (length (alkanes 0 70)) !! i = Some j
              ∧ identifiers !! i = alkanes 0 70 !! j
              ∧ targets !! i = numbered 70 !! j).
Proof.
  apply (loaders_aligned Z_iso_n
           (on_disk "photoswitches.csv" (Csv (unnamed z_iso_n_col)))
           "photoswitches.csv" (unnamed z_iso_n_col)
           (alkanes 0 70) (numbered 70)).
  - discriminate.
  - reflexivity.
  - reflexivity.
  - reflexivity.
  - reflexivity.
  - cbn. lia.
Defined.

(** X2. The loaders select targets by position only and never look at the
    values: the returned targets are the values of the table at the kept
    positions, whatever they are, so a missing value (NaN) at a kept
    position is returned among the targets. *)
Theorem loaders_keep_missing_values (p : property) (w : world)
    (path : string) (df : DataFrame) (smiles vals : list cell) :
  files w !! path = Some (Csv df) →
  df !! smiles_col = Some smiles →
  df !! property_col p = Some vals →
  length smiles = length vals →
  rows_needed p ≤ length smiles →
  (p = E_iso_pi → Str named_smiles ∈ smiles) →
  ∃ identifiers targets,
    loader p path w = (Ok (identifiers, targets), w)
    ∧ targets = rows_at vals (kept_positions p (length vals))
    ∧ (∀ j, j ∈ kept_positions p (length vals) →
         vals !! j = Some NaN → NaN ∈ targets).
Proof.
  intros Hfile Hsmiles Hvals Hlen Hrows Hnamed.
  destruct (loader_run_positions p w path df smiles vals)
    as (ids & Hrun & _ & _); [done..|].
  eexists _, _. split; [exact Hrun|]. split; [done|].
  intros j Hj HNaN. by eapply rows_at_elem_of.
Qed.

Lemma loaders_keep_missing_values_witness :
  ∃ identifiers targets,
    loader Thermal "photoswitches.csv"
      (on_disk "photoswitches.csv"
         (Csv (table thermal_col (alkanes 0 3) [NaN; Num 1; NaN])))
    = (Ok (identifiers, targets),
       on_disk "photoswitches.csv"
         (Csv (table thermal_col (alkanes 0 3) [NaN; Num 1; NaN])))
    ∧ targets = rows_at [NaN; Num 1; NaN] (kept_positions Thermal 3)
    ∧ (∀ j, j ∈ kept_positions Thermal 3 →
         [NaN; Num 1; NaN] !! j = Some NaN → NaN ∈ targets).
Proof.
  apply (loaders_keep_missing_values Thermal
           (on_disk "photoswitches.csv"
              (Csv (table thermal_col (alkanes 0 3) [NaN; Num 1; NaN])))
           "photoswitches.csv"
           (table thermal_col (alkanes 0 3) [NaN; Num 1; NaN])
           (alkanes 0 3) [NaN; Num 1; NaN]).
  - reflexivity.
  - reflexivity.
  - reflexivity.
  - reflexivity.
  - cbn. lia.
  - discriminate.
Defined.

(** X3. From a table of [n] rows the loaders return [min 65 n] rows
    (thermal), [n - 1] (e_iso_pi), [n - 2] (e_iso_n), [n - 14] (z_iso_pi)
    and [n - 5] (z_iso_n) rows, in both sequences. *)
Theorem loaders_row_count (p : property) (w : world) (path : string)
    (df : DataFrame) (smiles vals : list cell) :
  files w !! path = Some (Csv df) →
  df !! smiles_col = Some smiles →
  df !! property_col p = Some vals →
  length smiles = length vals →
  rows_needed p ≤ length smiles →
  (p = E_iso_pi → Str named_smiles ∈ smiles) →
  ∃ identifiers targets,
    loader p path w = (Ok (identifiers, targets), w)
    ∧ length identifiers = returned_rows p (length smiles)
    ∧ length targets = returned_rows p (length smiles).
Proof.
  intros Hfile Hsmiles Hvals Hlen Hrows Hnamed.
  destruct (loader_run_positions p w path df smiles vals)
    as (ids & Hrun & Hcount & _); [done..|].
  eexists _, _. split; [exact Hrun|]. split; [done|].
  rewrite rows_at_length by apply kept_positions_lt.
  rewrite <- Hlen. by apply length_kept_positions.
Qed.

Lemma loaders_row_count_witness :
  ∃ identifiers targets,
    loader Z_iso_pi "photoswitches.csv"
      (on_disk "photoswitches.csv" (Csv (unnamed z_iso_pi_col)))
    = (Ok (identifiers, targets),
       on_disk "photoswitches.csv" (Csv (unnamed z_iso_pi_col)))
    ∧ length identifiers = returned_rows Z_iso_pi (length (alkanes 0 70))
    ∧ length targets = returned_rows Z_iso_pi (length (alkanes 0 70)).
Proof.
  apply (loaders_row_count Z_iso_pi
           (on_disk "photoswitches.csv" (Csv (unnamed z_iso_pi_col)))
           "photoswitches.csv" (unnamed z_iso_pi_col)
           (alkanes 0 70) (numbered 70)).
  - reflexivity.
  - reflexivity.
  - reflexivity.
  - reflexivity.
  - cbn. lia.
  - discriminate.
Defined.

(** X4. The number of valid molecules stated in a loader's docstring
    (97, 96, 84, 93) is the number of rows the loader returns exactly when
    the table has 98 rows, the same table size for all four docstrings. *)
Theorem documented_counts_need_98_rows (p : property) (k : nat) (w : world)
    (path : string) (df : DataFrame) (smiles vals : list cell) :
  documented_molecules p = Some k →
  files w !! path = Some (Csv df) →
  df !! smiles_col = Some smiles →
  df !! property_col p = Some vals →
  length smiles = length vals →
  rows_needed p ≤ length smiles →
  (p = E_iso_pi → Str named_smiles ∈ smiles) →
  ∃ identifiers targets,
    loader p path w = (Ok (identifiers, targets), w)
    ∧ (length identifiers = k ↔ length smiles = 98)
    ∧ (length targets = k ↔ length smiles = 98).
Proof.
  intros Hdoc Hfile Hsmiles Hvals Hlen Hrows Hnamed.
  destruct (loader_run_positions p w path df smiles vals)
    as (ids & Hrun & Hcount & _); [done..|].
  eexists _, _. split; [exact Hrun|].
  rewrite rows_at_length by apply kept_positions_lt.
  rewrite <- Hlen, length_kept_positions, Hcount by done.
  split; by apply returned_rows_documented.
Qed.

Lemma documented_counts_need_98_rows_witness :
  ∃ identifiers targets,
    loader E_iso_n "photoswitches.csv"
      (on_disk "photoswitches.csv"
         (Csv (table e_iso_n_col (alkanes 0 98) (numbered 98))))
    = (Ok (identifiers, targets),
       on_disk "photoswitches.csv"
         (Csv (table e_iso_n_col (alkanes 0 98) (numbered 98))))
    ∧ (length identifiers = 96 ↔ length (alkanes 0 98) = 98)
    ∧ (length targets = 96 ↔ length (alkanes 0 98) = 98).
Proof.
  apply (documented_counts_need_98_rows E_iso_n 96
           (on_disk "photoswitches.csv"
              (Csv (table e_iso_n_col (alkanes 0 98) (numbered 98))))
           "photoswitches.csv"
           (table e_iso_n_col (alkanes 0 98) (numbered 98))
           (alkanes 0 98) (numbered 98)).
  - reflexivity.
  - reflexivity.
  - reflexivity.
  - reflexivity.
  - reflexivity.
  - cbn. lia.
  - discriminate.
Defined.

(** X5. On a table of at most 65 rows [load_thermal_data] raises nothing
    and returns both columns whole: the slices clamp to the table. *)
Theorem load_thermal_data_short_table (w : world) (path : string)
    (df : DataFrame) (smiles vals : list cell) :
  files w !! path = Some (Csv df) →
  df !! smiles_col = Some smiles →
  df !! thermal_col = Some vals →
  length smiles ≤ 65 →
  length vals ≤ 65 →
  load_thermal_data path w = (Ok (smiles, vals), w).
Proof.
  intros Hfile Hsmiles Hvals Hs Hv.
  erewrite load_thermal_data_run by done.
  by rewrite !take_ge.
Qed.

Lemma load_thermal_data_short_table_witness :
  load_thermal_data "photoswitches.csv"
    (on_disk "photoswitches.csv"
       (Csv (table thermal_col (alkanes 0 3) [NaN; Num 1; NaN])))
  = (Ok (alkanes 0 3, [NaN; Num 1; NaN]),
     on_disk "photoswitches.csv"
       (Csv (table thermal_col (alkanes 0 3) [NaN; Num 1; NaN]))).
Proof.
  apply (load_thermal_data_short_table
           (on_disk "photoswitches.csv"
              (Csv (table thermal_col (alkanes 0 3) [NaN; Num 1; NaN])))
           "photoswitches.csv"
           (table thermal_col (alkanes 0 3) [NaN; Num 1; NaN])).
  - reflexivity.
  - reflexivity.
  - reflexivity.
  - cbn. lia.
  - cbn. lia.
Defined.

(** X6. Every loader raises [FileNotFoundError] when there is no file at
    the path and [KeyError] when the table has no [SMILES] column, whatever
    else the table holds; the world is left as it was. *)
Theorem loader_missing_input (p : property) (path : string) (w : world) :
  (files w !! path = None →
   loader p path w = (Raise FileNotFoundError, w))
  ∧ (∀ df, files w !! path = Some (Csv df) →
           df !! smiles_col = None →
           loader p path w = (Raise KeyError, w)).
Proof.
  split.
  - intros Hnone. destruct p; cbn [loader];
      unfold load_thermal_data, load_e_iso_pi_data, load_e_iso_n_data,
        load_z_iso_pi_data, load_z_iso_n_data, mbind, M_bind, read_csv;
      by rewrite Hnone.
  - intros df Hfile Hcol. destruct p; cbn [loader];
      unfold load_thermal_data, load_e_iso_pi_data, load_e_iso_n_data,
        load_z_iso_pi_data, load_z_iso_n_data;
      rewrite (run_read_csv _ _ _ _ Hfile);
      apply run_lift_Raise; by apply df_column_None.
Qed.

Lemma loader_missing_input_witness :
  loader E_iso_pi "photoswitches.csv" empty_world
  = (Raise FileNotFoundError, empty_world)
  ∧ loader E_iso_pi "photoswitches.csv"
      (on_disk "photoswitches.csv" (Csv {[ e_iso_pi_col := numbered 40 ]}))
    = (Raise KeyError,
       on_disk "photoswitches.csv" (Csv {[ e_iso_pi_col := numbered 40 ]})).
Proof.
  split.
  - apply (loader_missing_input E_iso_pi "photoswitches.csv" empty_world).
    reflexivity.
  - apply (proj2 (loader_missing_input E_iso_pi "photoswitches.csv"
                    (on_disk "photoswitches.csv"
                       (Csv {[ e_iso_pi_col := numbered 40 ]})))
             {[ e_iso_pi_col := numbered 40 ]}).
    + reflexivity.
    + reflexivity.
Defined.

(** X7. A table that has the [SMILES] column but not the property column
    makes the loader raise [KeyError], provided the steps taken on the
    identifiers before the property column is read succeed: the named
    identifier is present for e_iso_pi, and there are at least 38 rows for
    z_iso_pi. *)
Theorem loader_missing_property_column (p : property) (w : world)
    (path : string) (df : DataFrame) (smiles : list cell) :
  files w !! path = Some (Csv df) →
  df !! smiles_col = Some smiles →
  df !! property_col p = None →
  (p = E_iso_pi → Str named_smiles ∈ smiles) →
  (p = Z_iso_pi → 38 ≤ length smiles) →
  loader p path w = (Raise KeyError, w).
Proof.
  intros Hfile Hsmiles Hcol Hnamed Hrows.
  destruct p; cbn [loader property_col] in *;
    unfold load_thermal_data, load_e_iso_pi_data, load_e_iso_n_data,
      load_z_iso_pi_data, load_z_iso_n_data;
    rewrite (run_read_csv _ _ _ _ Hfile);
    rewrite (run_lift_Ok _ _ _ _ (df_column_Some _ _ _ Hsmiles)).
  - apply run_lift_Raise. by apply df_column_None.
  - destruct (first_occurrence _ _ (Hnamed eq_refl))
      as (l1 & l2 & -> & Hl1).
    rewrite (run_lift_Ok _ _ _ _ (list_remove_first _ _ _ Hl1)).
    apply run_lift_Raise. by apply df_column_None.
  - cbn zeta. apply run_lift_Raise. by apply df_column_None.
  - specialize (Hrows eq_refl).
    destruct (getitem_lt smiles 26) as (s26 & _ & G26); [lia|].
    destruct (getitem_lt smiles 33) as (s33 & _ & G33); [lia|].
    destruct (getitem_lt smiles 37) as (s37 & _ & G37); [lia|].
    rewrite (run_lift_Ok _ _ _ _ G26), (run_lift_Ok _ _ _ _ G33),
      (run_lift_Ok _ _ _ _ G37).
    cbn zeta. apply run_lift_Raise. by apply df_column_None.
  - cbn zeta. apply run_lift_Raise. by apply df_column_None.
Qed.

Lemma loader_missing_property_column_witness :
  loader Z_iso_pi "photoswitches.csv"
    (on_disk "photoswitches.csv" (Csv (unnamed thermal_col)))
  = (Raise KeyError,
     on_disk "photoswitches.csv" (Csv (unnamed thermal_col))).
Proof.
  apply (loader_missing_property_column Z_iso_pi
           (on_disk "photoswitches.csv" (Csv (unnamed thermal_col)))
           "photoswitches.csv" (unnamed thermal_col) (alkanes 0 70)).
  - reflexivity.
  - reflexivity.
  - reflexivity.
  - discriminate.
  - intros _. cbn. lia.
Defined.

(** X8. Too short a table makes two loaders raise [IndexError]:
    [load_e_iso_pi_data] when the named identifier is present and the
    property column has at most 31 rows, and [load_z_iso_pi_data] when the
    [SMILES] column has fewer than 38 rows, even before the property column
    is looked up. *)
Theorem loader_short_table_raises (w : world) (path : string)
    (df : DataFrame) (smiles : list cell) :
  files w !! path = Some (Csv df) →
  df !! smiles_col = Some smiles →
  (∀ vals, Str named_smiles ∈ smiles →
           df !! e_iso_pi_col = Some vals →
           length vals ≤ 31 →
           load_e_iso_pi_data path w = (Raise IndexError, w))
  ∧ (length smiles < 38 →
     load_z_iso_pi_data path w = (Raise IndexError, w)).
Proof.
  intros Hfile Hsmiles. split.
  - intros vals Hnamed Hvals Hlen.
    destruct (first_occurrence _ _ Hnamed) as (l1 & l2 & Hsplit & Hl1).
    unfold load_e_iso_pi_data.
    rewrite (run_read_csv _ _ _ _ Hfile).
    rewrite (run_lift_Ok _ _ _ _ (df_column_Some _ _ _ Hsmiles)).
    rewrite Hsplit, (run_lift_Ok _ _ _ _ (list_remove_first _ _ _ Hl1)).
    rewrite (run_lift_Ok _ _ _ _ (df_column_Some _ _ _ Hvals)).
    apply run_lift_Raise. unfold np_delete1. by rewrite decide_False by lia.
  - intros Hlen. unfold load_z_iso_pi_data.
    rewrite (run_read_csv _ _ _ _ Hfile).
    rewrite (run_lift_Ok _ _ _ _ (df_column_Some _ _ _ Hsmiles)).
    assert (Hget : ∀ i, length smiles ≤ i → getitem smiles i = Raise IndexError).
    { intros i Hi. unfold getitem. by rewrite (lookup_ge_None_2 _ _ Hi). }
    destruct (decide (26 < length smiles)) as [H26|H26];
      [|apply run_lift_Raise, Hget; lia].
    destruct (getitem_lt smiles 26 H26) as (s26 & _ & G26).
    rewrite (run_lift_Ok _ _ _ _ G26).
    destruct (decide (33 < length smiles)) as [H33|H33];
      [|apply run_lift_Raise, Hget; lia].
    destruct (getitem_lt smiles 33 H33) as (s33 & _ & G33).
    rewrite (run_lift_Ok _ _ _ _ G33).
    apply run_lift_Raise, Hget. lia.
Qed.

Lemma loader_short_table_raises_witness :
  load_e_iso_pi_data "photoswitches.csv"
    (on_disk "photoswitches.csv"
       (Csv (table e_iso_pi_col
               (alkanes 0 30 ++ [Str named_smiles]) (numbered 31))))
  = (Raise IndexError,
     on_disk "photoswitches.csv"
       (Csv (table e_iso_pi_col
               (alkanes 0 30 ++ [Str named_smiles]) (numbered 31))))
  ∧ load_z_iso_pi_data "photoswitches.csv"
      (on_disk "photoswitches.csv"
         (Csv (table e_iso_pi_col
                 (alkanes 0 30 ++ [Str named_smiles]) (numbered 31))))
    = (Raise IndexError,
       on_disk "photoswitches.csv"
         (Csv (table e_iso_pi_col
                 (alkanes 0 30 ++ [Str named_smiles]) (numbered 31)))).
Proof.
  destruct (loader_short_table_raises
              (on_disk "photoswitches.csv"
                 (Csv (table e_iso_pi_col
                         (alkanes 0 30 ++ [Str named_smiles]) (numbered 31))))
              "photoswitches.csv"
              (table e_iso_pi_col
                 (alkanes 0 30 ++ [Str named_smiles]) (numbered 31))
              (alkanes 0 30 ++ [Str named_smiles])
              eq_refl eq_refl) as [He Hz].
  split.
  - apply (He (numbered 31)).
    + apply (list_elem_of_lookup_2 _ 30). reflexivity.
    + reflexivity.
    + cbn. lia.
  - apply Hz. cbn. lia.
Defined.

(** * Further properties of [transform_data] *)

(** ** Standardised columns *)

Lemma sum_shift_scale (l : list R) m s :
  foldr Rplus 0%R ((λ x, (x - m) / s)%R <$> l)
  = ((foldr Rplus 0 l - INR (length l) * m) / s)%R.
Proof.
  induction l as [|a l IH].
  - cbn. unfold Rdiv. ring.
  - rewrite fmap_cons. cbn [foldr length]. rewrite IH, S_INR.
    unfold Rdiv. ring.
Qed.

Lemma sum_mul (f : R → R) c (l : list R) :
  foldr Rplus 0%R ((λ x, f x * c)%R <$> l)
  = (foldr Rplus 0 (f <$> l) * c)%R.
Proof.
  induction l as [|a l IH]; [cbn; ring|].
  rewrite !fmap_cons. cbn [foldr]. rewrite IH. ring.
Qed.

Lemma INR_length_nonzero {A} (l : list A) : l ≠ [] → INR (length l) ≠ 0%R.
Proof. intros Hl. apply not_0_INR. by destruct l. Qed.

Lemma mean_standardized (l : list R) s :
  l ≠ [] → mean ((λ x, (x - mean l) / s)%R <$> l) = 0%R.
Proof.
  intros Hl. apply INR_length_nonzero in Hl.
  unfold mean at 1. rewrite sum_shift_scale, length_fmap. unfold mean.
  replace (INR (length l) * (foldr Rplus 0 l / INR (length l)))%R
    with (foldr Rplus 0%R l) by (by field).
  unfold Rdiv. ring.
Qed.

Lemma variance_standardized (l : list R) s :
  l ≠ [] → s ≠ 0%R →
  variance ((λ x, (x - mean l) / s)%R <$> l) = (variance l / (s * s))%R.
Proof.
  intros Hl Hs. unfold variance at 1. rewrite mean_standardized by done.
  rewrite <- list_fmap_compose.
  rewrite (list_fmap_ext _ (λ x, (x - mean l) ^ 2 * / (s * s))%R l); cycle 1.
  { intros i x _. cbn. by field. }
  unfold mean at 1. rewrite sum_mul, length_fmap.
  unfold variance, mean. rewrite length_fmap. unfold Rdiv. ring.
Qed.

Lemma std_standardized (l : list R) :
  l ≠ [] → is_constant_feature (variance l) (mean l) (length l) = false →
  std ((λ x, (x - mean l) / column_scale l)%R <$> l) = 1%R.
Proof.
  intros Hl Hconst. unfold column_scale. rewrite Hconst.
  apply is_constant_feature_false_pos in Hconst; [|apply variance_nonneg].
  assert (Hstd : std l ≠ 0%R).
  { apply Rgt_not_eq, Rlt_gt. by apply sqrt_lt_R0. }
  unfold std at 1. rewrite variance_standardized by done.
  unfold std. rewrite sqrt_sqrt by lra.
  replace (variance l / variance l)%R with 1%R by (field; lra).
  apply sqrt_1.
Qed.

Lemma mean_fit_statistics n cols :
  mean_ (fit_statistics n cols) = mean <$> cols.
Proof. reflexivity. Qed.

Lemma fit_statistics_lookup d rows j :
  j < d →
  mean_ (fit_statistics (length rows) (columns d rows)) !! j
  = Some (mean (column j rows))
  ∧ scale_ (fit_statistics (length rows) (columns d rows)) !! j
    = Some (column_scale (column j rows)).
Proof.
  intros Hj. rewrite scale_fit_statistics, mean_fit_statistics.
  unfold columns.
  rewrite !list_lookup_fmap, lookup_seq_lt by done. cbn.
  unfold column_scale, std. by rewrite length_column.
Qed.

Lemma scale_row_lookup f r j x m s :
  r !! j = Some x → mean_ f !! j = Some m → scale_ f !! j = Some s →
  scale_row f r !! j = Some ((x - m) / s)%R.
Proof.
  intros Hx Hm Hs. unfold scale_row.
  rewrite lookup_zip_with, Hx. cbn.
  rewrite lookup_zip_with, Hm. cbn. by rewrite Hs.
Qed.

Lemma column_scale_row d rows j :
  Forall (λ r, length r = d) rows → j < d →
  column j (scale_row (fit_statistics (length rows) (columns d rows))
              <$> rows)
  = (λ x, (x - mean (column j rows)) / column_scale (column j rows))%R
    <$> column j rows.
Proof.
  intros Hrect Hj. unfold column at 1 4.
  rewrite <- !list_fmap_compose. apply Forall_fmap_ext_1.
  destruct (fit_statistics_lookup d rows j Hj) as [Hm Hs].
  eapply Forall_impl; [exact Hrect|]. intros r Hr. cbn.
  cbn beta in Hr. destruct (lookup_lt_is_Some_2 r j) as [x Hx]; [lia|].
  rewrite (nth_lookup_Some _ _ _ _ Hx).
  by rewrite (nth_lookup_Some _ _ _ _ (scale_row_lookup _ _ _ _ _ _ Hx Hm Hs)).
Qed.

Lemma scaler_fit_transform_standardized s0 d rows s X' :
  rectangular (Arr2 d rows) = true →
  scaler_fit_transform s0 (Arr2 d rows) = Ok (s, X') →
  ∃ rows', X' = Arr2 d rows'
    ∧ ∀ j, j < d →
        column j rows'
        = (λ x, (x - mean (column j rows)) / column_scale (column j rows))%R
          <$> column j rows
        ∧ mean (column j rows') = 0%R
        ∧ (is_constant_feature (variance (column j rows))
             (mean (column j rows)) (length rows) = false
           → std (column j rows') = 1%R).
Proof.
  intros Hrect Hft. pose proof Hft as Hft'.
  apply scaler_fit_transform_Ok in Hft' as [Hfit _].
  apply scaler_fit_Ok in Hfit as (d0 & rows0 & [= <- <-] & Hrows & Hd & _).
  rewrite scaler_fit_transform_Arr2 in Hft by done.
  injection Hft as <- <-.
  eexists. split; [done|]. intros j Hj.
  apply rectangular_Forall in Hrect.
  assert (Hcol : column j rows ≠ []).
  { unfold column. by destruct rows. }
  rewrite column_scale_row by done.
  split; [done|]. split.
  - by apply mean_standardized.
  - intros Hconst. apply std_standardized; [done|].
    by rewrite length_column.
Qed.

Lemma column_0_singletons (v : list R) : column 0 ((λ x, [x]) <$> v) = v.
Proof.
  unfold column. rewrite <- list_fmap_compose.
  induction v as [|x v IH]; cbn; by f_equal.
Qed.

Lemma concat_single_column rows :
  Forall (λ r : list R, length r = 1) rows → concat rows = column 0 rows.
Proof.
  induction 1 as [|r rows Hr Hrows IH]; [done|].
  destruct r as [|x [|]]; try done. cbn. by rewrite IH.
Qed.

Lemma scaler_transform_wrong_shape f d X :
  length (mean_ f) = d → (∀ rows, X ≠ Arr2 d rows) →
  scaler_transform (Some f) X = Raise ValueError.
Proof.
  intros Hf HX. unfold scaler_transform.
  destruct (check_array X) as [[d' rows']|e] eqn:Hcheck; cbn.
  - apply check_array_Ok in Hcheck as (-> & _ & _).
    destruct (d' =? length (mean_ f)) eqn:Heq; [|done].
    apply Nat.eqb_eq in Heq. destruct (HX rows'). congruence.
  - destruct X as [v|d' rows']; cbn in Hcheck; [congruence|].
    destruct (_ || _); congruence.
Qed.

Lemma scaler_inverse_transform_Ok s X X' :
  scaler_inverse_transform s X = Ok X' →
  ∃ f d rows, s = Some f ∧ X = Arr2 d rows ∧ rows ≠ [] ∧ d ≠ 0.
Proof.
  unfold scaler_inverse_transform. destruct s as [f|]; [|done].
  destruct (check_array X) as [[d rows]|] eqn:Hcheck; cbn; [|done].
  apply check_array_Ok in Hcheck as (-> & Hrows & Hd).
  intros _. by exists f, d, rows.
Qed.

Section transform_extras.
Context `{sk : PCA}.
Implicit Types (X_train y_train X_test y_test : ndarray).
Implicit Types (n_components : option nat) (use_pca : bool).

(** The world after a run, whatever its outcome. *)
Lemma transform_data_frame_world X_train y_train X_test y_test
    n_components use_pca w w' (r : result frame) :
  transform_data_frame X_train y_train X_test y_test n_components use_pca w
  = (r, w') →
  w' = w
  ∨ (use_pca = true
     ∧ files w' = files w
     ∧ (stdout w' = stdout w
        ∨ ∃ x, stdout w'
               = stdout w ++ [("Fraction of variance retained is: ", x)])).
Proof.
  unfold transform_data_frame, mbind, M_bind, lift, mret, M_ret.
  destruct (scaler_fit_transform new_StandardScaler X_train)
    as [[xs Xs]|]; [|intros [= _ <-]; by left].
  destruct (scaler_transform xs X_test) as [Xt|];
    [|intros [= _ <-]; by left].
  destruct (scaler_fit_transform new_StandardScaler (reshape_column y_train))
    as [[ys Ys]|]; [|intros [= _ <-]; by left].
  destruct (scaler_transform ys (reshape_column y_test)) as [Yt|];
    [|intros [= _ <-]; by left].
  destruct use_pca; [|intros [= _ <-]; by left].
  unfold PCA_fit_transform.
  destruct (pca_fit_transform (random_state w) n_components Xs)
    as [[[pca Xs']|] g]; [|intros [= _ <-]; right; cbn; eauto].
  unfold print.
  destruct (pca_transform pca Xt) as [Xt'|]; intros [= _ <-];
    right; cbn; eauto.
Qed.

Lemma transform_data_world X_train y_train X_test y_test
    n_components use_pca w w'
    (r : result (ndarray * ndarray * ndarray * ndarray * StandardScaler)) :
  transform_data X_train y_train X_test y_test n_components use_pca w
  = (r, w') →
  ∃ r0, transform_data_frame X_train y_train X_test y_test
          n_components use_pca w = (r0, w')
        ∧ ((∃ t, r = Ok t) ↔ ∃ fr, r0 = Ok fr).
Proof.
  unfold transform_data, mbind, M_bind, mret, M_ret.
  destruct (transform_data_frame _ _ _ _ _ _ w) as [[fr|e] w1];
    intros [= <- <-]; eexists; (split; [done|]); split;
    intros [? ?]; eauto; done.
Qed.
End transform_extras.

(** ** Targets as a single column *)

Lemma scale_row_singleton (v : list R) y :
  scale_row (fit_statistics (length ((λ x : R, [x]) <$> v))
               (columns 1 ((λ x, [x]) <$> v))) [y]
  = [((y - mean v) / column_scale v)%R].
Proof.
  unfold scale_row. rewrite scale_fit_statistics, mean_fit_statistics.
  unfold columns. cbn [seq fmap list_fmap].
  rewrite column_0_singletons, length_fmap. reflexivity.
Qed.

Lemma ravel_scaled_column (v u : list R) :
  concat (scale_row (fit_statistics (length ((λ x : R, [x]) <$> v))
                       (columns 1 ((λ x, [x]) <$> v)))
            <$> ((λ x, [x]) <$> u))
  = (λ y, (y - mean v) / column_scale v)%R <$> u.
Proof.
  induction u as [|y u IH]; [done|].
  rewrite !fmap_cons. cbn [concat]. by rewrite scale_row_singleton, IH.
Qed.

(** The target scaler fitted on [y] and what it does to [y] and to any
    other target vector. *)
Lemma target_scaling s0 y s Y' :
  scaler_fit_transform s0 (reshape_column y) = Ok (s, Y') →
  ravel y ≠ []
  ∧ s = Some (fit_statistics (length ((λ x : R, [x]) <$> ravel y))
                (columns 1 ((λ x, [x]) <$> ravel y)))
  ∧ ravel Y'
    = (λ x, (x - mean (ravel y)) / column_scale (ravel y))%R <$> ravel y
  ∧ ∀ y2 Y2,
      scaler_transform s (reshape_column y2) = Ok Y2 →
      ravel Y2
      = (λ x, (x - mean (ravel y)) / column_scale (ravel y))%R <$> ravel y2.
Proof.
  intros Hft. unfold reshape_column in *.
  assert (Hy : ravel y ≠ []).
  { apply scaler_fit_transform_Ok in Hft as [Hfit _].
    apply scaler_fit_Ok in Hfit as (d & rows & [= <- <-] & Hrows & _).
    by destruct (ravel y). }
  rewrite scaler_fit_transform_Arr2 in Hft; [|by destruct (ravel y)|done].
  injection Hft as <- <-. split; [done|]. split; [done|]. split.
  - cbn [ravel]. apply ravel_scaled_column.
  - intros y2 Y2 Htr.
    apply scaler_transform_Ok in Htr
      as (f & d & rows & [= <-] & [= <- <-] & _ & _ & _ & ->).
    cbn [ravel]. apply ravel_scaled_column.
Qed.

Section transform_extra_claims.
Context `{sk : PCA}.
Implicit Types (X_train y_train X_test y_test : ndarray).
Implicit Types (n_components : option nat) (use_pca : bool).

(** X9. Without PCA, over exact reals, the returned training data are
    standardised: every column of [X_train_scaled] has mean zero, and
    standard deviation one unless the scaler takes the column of [X_train]
    for constant (its variance within the error bound of its computation);
    likewise the returned [y_train_scaled]. *)
Theorem transform_data_standardizes (d : nat) (rows : list (list R))
    y_train X_test y_test n_components (w w' : world)
    (Xs ys Xt yt : ndarray) (sc : StandardScaler) :
  rectangular (Arr2 d rows) = true →
  transform_data (Arr2 d rows) y_train X_test y_test n_components false w
  = (Ok (Xs, ys, Xt, yt, sc), w') →
  (∃ rows_s,
     Xs = Arr2 d rows_s
     ∧ ∀ j, j < d →
         mean (column j rows_s) = 0%R
         ∧ (is_constant_feature (variance (column j rows))
              (mean (column j rows)) (length rows) = false
            → std (column j rows_s) = 1%R))
  ∧ mean (ravel ys) = 0%R
  ∧ (is_constant_feature (variance (ravel y_train)) (mean (ravel y_train))
       (length (ravel y_train)) = false
     → std (ravel ys) = 1%R).
Proof.
  intros Hrect Hrun.
  apply transform_data_Ok in Hrun as (fr & Hfr & -> & -> & -> & -> & ->).
  destruct (transform_data_frame_Ok _ _ _ _ _ _ _ _ _ Hfr)
    as (X0 & T0 & HX & _ & Hy & _ & -> & _ & _).
  split.
  - destruct (scaler_fit_transform_standardized _ _ _ _ _ Hrect HX)
      as (rows_s & -> & Hcols).
    exists rows_s. split; [done|]. intros j Hj.
    destruct (Hcols j Hj) as (_ & Hmean & Hstd). done.
  - apply target_scaling in Hy as (Hne & _ & -> & _). split.
    + by apply mean_standardized.
    + by apply std_standardized.
Qed.

(** X10. The target scaler returned by [transform_data] maps scaled
    targets back to the original scale: its inverse transform applied to
    the returned [y_test_scaled] gives [y_test]; its inverse transform
    undoes its transform on every rectangular array, and its transform
    undoes its inverse transform on every single-column array. The inverse
    transform does not check the number of columns: it accepts an array of
    any width, applying the single scale and mean to every column, and the
    transform then rejects the result unless the width is one. *)
Theorem transform_data_target_scaler_inverts X_train y_train X_test y_test
    n_components use_pca (w w' : world) (Xs ys Xt yt : ndarray)
    (sc : StandardScaler) :
  transform_data X_train y_train X_test y_test n_components use_pca w
  = (Ok (Xs, ys, Xt, yt, sc), w') →
  scaler_inverse_transform sc yt = Ok (reshape_column y_test)
  ∧ (∀ P P', rectangular P = true →
       scaler_transform sc P = Ok P' →
       scaler_inverse_transform sc P' = Ok P)
  ∧ (∀ rows P', Forall (λ r, length r = 1) rows →
       scaler_inverse_transform sc (Arr2 1 rows) = Ok P' →
       scaler_transform sc P' = Ok (Arr2 1 rows))
  ∧ (∀ d rows, rows ≠ [] → d ≠ 0 →
       ∃ P', scaler_inverse_transform sc (Arr2 d rows) = Ok P'
             ∧ shape P' = [length rows; d]
             ∧ (d ≠ 1 → scaler_transform sc P' = Raise ValueError)).
Proof.
  intros Hrun.
  apply transform_data_Ok in Hrun as (fr & Hfr & -> & -> & -> & -> & ->).
  destruct (transform_data_frame_Ok _ _ _ _ _ _ _ _ _ Hfr)
    as (X0 & T0 & _ & _ & Hy & Hyt & _).
  apply target_scaling in Hy as (_ & Hsc & _ & _). rewrite Hsc in *.
  set (f := fit_statistics _ _) in *.
  assert (Hnz : Forall (λ s, s ≠ 0%R) (scale_ f))
    by apply fit_statistics_scale_nonzero.
  assert (Hm1 : length (mean_ f) = 1).
  { unfold f. by rewrite length_mean_fit_statistics, length_columns. }
  assert (Hs1 : length (scale_ f) = 1).
  { unfold f. by rewrite fit_statistics_lengths. }
  split; [|split; [|split]].
  - apply scaler_inverse_of_transform;
      [apply rectangular_reshape_column | done].
  - intros P P' HP. by apply scaler_inverse_of_transform.
  - intros rows P' Hrect Hinv. pose proof Hinv as Hinv'.
    apply scaler_inverse_transform_Ok in Hinv'
      as (f' & d' & rows' & _ & [= <- <-] & Hrows & _).
    rewrite scaler_inverse_transform_same in Hinv by done.
    injection Hinv as <-. unfold scaler_transform.
    rewrite check_array_Arr2; [|by destruct rows|done].
    cbn [mbind result_bind]. rewrite Hm1. cbn [Nat.eqb]. do 2 f_equal.
    rewrite <- list_fmap_compose.
    transitivity ((λ r : list R, r) <$> rows); [|apply list_fmap_id].
    apply Forall_fmap_ext_1.
    eapply Forall_impl; [exact Hrect|]. intros r Hr. cbn beta in *.
    apply scale_unscale_row; [done | congruence | congruence].
  - intros d rows Hrows Hd.
    destruct (mean_ f) as [|m [|]] eqn:Hmean; try done.
    destruct (scale_ f) as [|s [|]] eqn:Hscale; try done.
    unfold scaler_inverse_transform, scaler_transform.
    rewrite check_array_Arr2 by done. cbn [mbind result_bind].
    rewrite Hmean, Hscale. unfold broadcast_to. cbn [length].
    destruct (1 =? d) eqn:H1d; cbn [mbind mret result_bind result_ret].
    + apply Nat.eqb_eq in H1d as <-. eexists. split; [done|]. split.
      * cbn. by rewrite length_fmap.
      * done.
    + eexists. split; [done|]. split.
      * cbn. by rewrite length_fmap.
      * intros _. rewrite check_array_Arr2; [|by destruct rows|done].
        cbn [mbind result_bind length].
        apply Nat.eqb_neq in H1d.
        by rewrite (proj2 (Nat.eqb_neq d 1)) by lia.
Qed.

(** X11. [transform_data] never touches the files. With [use_pca] false it
    leaves the whole world as it was, whatever the outcome; otherwise it
    prints at most one line, and exactly one, the retained-variance line,
    when the call returns. *)
Theorem transform_data_output X_train y_train X_test y_test
    n_components use_pca (w w' : world)
    (r : result (ndarray * ndarray * ndarray * ndarray * StandardScaler)) :
  transform_data X_train y_train X_test y_test n_components use_pca w
  = (r, w') →
  files w' = files w
  ∧ (use_pca = false → w' = w)
  ∧ (∃ out, stdout w' = stdout w ++ out ∧ length out ≤ 1)
  ∧ (use_pca = true → (∃ t, r = Ok t) →
     ∃ x, stdout w'
          = stdout w ++ [("Fraction of variance retained is: ", x)]).
Proof.
  intros Hrun.
  apply transform_data_world in Hrun as (r0 & Hfr & Hok).
  assert (Hline : use_pca = true → (∃ t, r = Ok t) →
            ∃ x, stdout w'
                 = stdout w ++ [("Fraction of variance retained is: ", x)]).
  { intros -> Ht. apply Hok in Ht as [fr ->].
    destruct (transform_data_frame_Ok _ _ _ _ _ _ _ _ _ Hfr)
      as (_ & _ & _ & _ & _ & _ & pca & g & _ & _ & ->).
    by exists (py_sum (explained_variance_ratio_ pca)). }
  destruct (transform_data_frame_world _ _ _ _ _ _ _ _ _ Hfr)
    as [->|(Hup & Hfiles & Hout)].
  - split; [done|]. split; [done|]. split; [|done].
    exists []. split; [by rewrite app_nil_r | cbn; lia].
  - split; [done|]. split; [congruence|]. split; [|done].
    destruct Hout as [->|[x ->]].
    + exists []. split; [by rewrite app_nil_r | cbn; lia].
    + exists [("Fraction of variance retained is: ", x)].
      split; [done | cbn; lia].
Qed.

(** X12. The PCA arguments do not reach the targets: two calls on the same
    four arrays that differ in [n_components] and [use_pca] return the same
    [y_train_scaled], [y_test_scaled] and target scaler. *)
Theorem transform_data_targets_ignore_pca X_train y_train X_test y_test
    n_components use_pca n_components' use_pca' (w1 w1' w2 w2' : world)
    (Xs ys Xt yt Xs' ys' Xt' yt' : ndarray) (sc sc' : StandardScaler) :
  transform_data X_train y_train X_test y_test n_components use_pca w1
  = (Ok (Xs, ys, Xt, yt, sc), w1') →
  transform_data X_train y_train X_test y_test n_components' use_pca' w2
  = (Ok (Xs', ys', Xt', yt', sc'), w2') →
  ys = ys' ∧ yt = yt' ∧ sc = sc'.
Proof.
  intros Hrun Hrun'.
  apply transform_data_Ok in Hrun as (fr & Hfr & -> & -> & -> & -> & ->).
  apply transform_data_Ok in Hrun' as (fr' & Hfr' & -> & -> & -> & -> & ->).
  destruct (transform_data_frame_Ok _ _ _ _ _ _ _ _ _ Hfr)
    as (_ & _ & _ & _ & Hy & Hyt & _).
  destruct (transform_data_frame_Ok _ _ _ _ _ _ _ _ _ Hfr')
    as (_ & _ & _ & _ & Hy' & Hyt' & _).
  rewrite Hy in Hy'. injection Hy' as Hsc Hys.
  rewrite <- Hsc, Hyt in Hyt'. injection Hyt' as Hyt'. done.
Qed.

(** X13. [transform_data] raises [ValueError], and prints nothing, when
    [X_train] is one-dimensional, and when [X_train] is a valid
    two-dimensional array but [X_test] is not a two-dimensional array with
    the same number of columns. *)
Theorem transform_data_shape_errors y_train X_test y_test
    n_components use_pca (w : world) :
  (∀ v, transform_data (Arr1 v) y_train X_test y_test n_components use_pca w
        = (Raise ValueError, w))
  ∧ (∀ d rows, rows ≠ [] → d ≠ 0 →
       (∀ rows', X_test ≠ Arr2 d rows') →
       transform_data (Arr2 d rows) y_train X_test y_test
         n_components use_pca w
       = (Raise ValueError, w)).
Proof.
  split.
  - reflexivity.
  - intros d rows Hrows Hd Hshape.
    unfold transform_data, transform_data_frame, mbind, M_bind, lift.
    rewrite scaler_fit_transform_Arr2 by done.
    rewrite (scaler_transform_wrong_shape _ d); [done| |done].
    by rewrite length_mean_fit_statistics, length_columns.
Qed.

(** X14. Without PCA, over exact reals, the test data are scaled with the
    statistics of the training data: entry [j] of a row of [X_test] becomes
    itself minus the mean of column [j] of [X_train], divided by the scale
    fitted for that column, and every entry of [y_test] becomes itself
    minus the mean of [y_train], divided by the scale fitted for
    [y_train]. The fitted scale of a column is its standard deviation, or
    one when the scaler takes the column for constant. *)
Theorem transform_data_test_uses_train_statistics (d : nat)
    (rows rows_t : list (list R)) y_train y_test n_components
    (w w' : world) (Xs ys Xt yt : ndarray) (sc : StandardScaler) :
  transform_data (Arr2 d rows) y_train (Arr2 d rows_t) y_test
    n_components false w
  = (Ok (Xs, ys, Xt, yt, sc), w') →
  (∃ rows_t',
     Xt = Arr2 d rows_t' ∧ length rows_t' = length rows_t
     ∧ ∀ i j r x, rows_t !! i = Some r → r !! j = Some x → j < d →
         ∃ r', rows_t' !! i = Some r'
               ∧ r' !! j
                 = Some ((x - mean (column j rows))
                         / column_scale (column j rows))%R)
  ∧ ravel yt
    = (λ y, (y - mean (ravel y_train)) / column_scale (ravel y_train))%R
      <$> ravel y_test.
Proof.
  intros Hrun.
  apply transform_data_Ok in Hrun as (fr & Hfr & -> & -> & -> & -> & ->).
  destruct (transform_data_frame_Ok _ _ _ _ _ _ _ _ _ Hfr)
    as (X0 & T0 & HX & HXt & Hy & Hyt & _ & -> & _).
  split.
  - apply scaler_fit_transform_Ok in HX as [Hfit _].
    apply scaler_fit_Ok in Hfit as (d0 & rows0 & [= <- <-] & _ & _ & Hf).
    rewrite Hf in HXt.
    apply scaler_transform_Ok in HXt
      as (f & d1 & rows1 & [= <-] & [= <- <-] & _ & _ & _ & ->).
    eexists. split; [done|]. split; [by rewrite length_fmap|].
    intros i j r x Hr Hx Hj.
    destruct (fit_statistics_lookup d rows j Hj) as [Hm Hs].
    eexists. split.
    + rewrite list_lookup_fmap, Hr. done.
    + by apply scale_row_lookup.
  - apply target_scaling in Hy as (_ & Hsc & _ & Htest).
    by apply Htest.
Qed.
End transform_extra_claims.

Example transform_data_ex_components :
  transform_data (sk := failing_PCA) X_train_ex y_train_ex X_test_ex y_test_ex
    (Some 1) false empty_world
  = (Ok (Arr2 1 [[(-1)%R]; [1%R]], Arr2 1 [[(-1)%R]; [1%R]],
         Arr2 1 [[0%R]], Arr2 1 [[0%R]],
         Some {| mean_ := [2%R]; var_ := [1%R]; scale_ := [1%R] |}),
     empty_world).
Proof. run_transform_data. Qed.

Lemma transform_data_standardizes_witness :
  (∃ rows_s,
     Arr2 1 [[(-1)%R]; [1%R]] = Arr2 1 rows_s
     ∧ ∀ j, j < 1 →
         mean (column j rows_s) = 0%R
         ∧ (is_constant_feature (variance (column j [[0%R]; [2%R]]))
              (mean (column j [[0%R]; [2%R]])) (length [[0%R]; [2%R]])
            = false
            → std (column j rows_s) = 1%R))
  ∧ mean (ravel (Arr2 1 [[(-1)%R]; [1%R]])) = 0%R
  ∧ std (ravel (Arr2 1 [[(-1)%R]; [1%R]])) = 1%R.
Proof.
  destruct (transform_data_standardizes (sk := failing_PCA)
              1 [[0%R]; [2%R]] y_train_ex X_test_ex y_test_ex None
              empty_world empty_world
              _ _ (Arr2 1 [[0%R]]) (Arr2 1 [[0%R]])
              (Some {| mean_ := [2%R]; var_ := [1%R]; scale_ := [1%R] |})
              eq_refl transform_data_ex)
    as (Hcols & Hmean & Hstd).
  split; [exact Hcols|]. split; [exact Hmean|].
  apply Hstd, y_train_ex_not_constant.
Defined.

Lemma transform_data_target_scaler_inverts_witness :
  scaler_inverse_transform
    (Some {| mean_ := [2%R]; var_ := [1%R]; scale_ := [1%R] |})
    (Arr2 1 [[0%R]])
  = Ok (reshape_column y_test_ex)
  ∧ (∀ P P', rectangular P = true →
       scaler_transform
         (Some {| mean_ := [2%R]; var_ := [1%R]; scale_ := [1%R] |}) P
       = Ok P' →
       scaler_inverse_transform
         (Some {| mean_ := [2%R]; var_ := [1%R]; scale_ := [1%R] |}) P'
       = Ok P)
  ∧ (∀ rows P', Forall (λ r, length r = 1) rows →
       scaler_inverse_transform
         (Some {| mean_ := [2%R]; var_ := [1%R]; scale_ := [1%R] |})
         (Arr2 1 rows)
       = Ok P' →
       scaler_transform
         (Some {| mean_ := [2%R]; var_ := [1%R]; scale_ := [1%R] |}) P'
       = Ok (Arr2 1 rows))
  ∧ (∀ d rows, rows ≠ [] → d ≠ 0 →
       ∃ P', scaler_inverse_transform
               (Some {| mean_ := [2%R]; var_ := [1%R]; scale_ := [1%R] |})
               (Arr2 d rows)
             = Ok P'
             ∧ shape P' = [length rows; d]
             ∧ (d ≠ 1 →
                scaler_transform
                  (Some {| mean_ := [2%R]; var_ := [1%R]; scale_ := [1%R] |})
                  P'
                = Raise ValueError)).
Proof.
  apply (transform_data_target_scaler_inverts (sk := failing_PCA)
           X_train_ex y_train_ex X_test_ex y_test_ex None false
           empty_world empty_world
           (Arr2 1 [[(-1)%R]; [1%R]]) (Arr2 1 [[(-1)%R]; [1%R]])
           (Arr2 1 [[0%R]])).
  apply transform_data_ex.
Defined.

(** The inverse transform of the example target scaler on an array of two
    columns: both columns are mapped with the single scale and mean. *)
Example scaler_inverse_transform_two_columns :
  scaler_inverse_transform
    (Some {| mean_ := [2%R]; var_ := [1%R]; scale_ := [1%R] |})
    (Arr2 2 [[1%R; 2%R]; [3%R; 4%R]])
  = Ok (Arr2 2 [[(1 * 1 + 2)%R; (2 * 1 + 2)%R];
                [(3 * 1 + 2)%R; (4 * 1 + 2)%R]]).
Proof. reflexivity. Qed.

Lemma transform_data_output_witness :
  files empty_world = files empty_world
  ∧ (false = false → empty_world = empty_world)
  ∧ (∃ out, stdout empty_world = stdout empty_world ++ out ∧ length out ≤ 1)
  ∧ (false = true →
     (∃ t, Ok (Arr2 1 [[(-1)%R]; [1%R]], Arr2 1 [[(-1)%R]; [1%R]],
               Arr2 1 [[0%R]], Arr2 1 [[0%R]],
               Some {| mean_ := [2%R]; var_ := [1%R]; scale_ := [1%R] |})
           = Ok t) →
     ∃ x, stdout empty_world
          = stdout empty_world
            ++ [("Fraction of variance retained is: ", x)]).
Proof.
  apply (transform_data_output (sk := failing_PCA)
           X_train_ex y_train_ex X_test_ex y_test_ex None false
           empty_world empty_world).
  apply transform_data_ex.
Defined.

Lemma transform_data_targets_ignore_pca_witness :
  Arr2 1 [[(-1)%R]; [1%R]] = Arr2 1 [[(-1)%R]; [1%R]]
  ∧ Arr2 1 [[0%R]] = Arr2 1 [[0%R]]
  ∧ Some {| mean_ := [2%R]; var_ := [1%R]; scale_ := [1%R] |}
    = Some {| mean_ := [2%R]; var_ := [1%R]; scale_ := [1%R] |}.
Proof.
  apply (transform_data_targets_ignore_pca (sk := failing_PCA)
           X_train_ex y_train_ex X_test_ex y_test_ex
           None false (Some 1) false
           empty_world empty_world empty_world empty_world
           (Arr2 1 [[(-1)%R]; [1%R]]) _ (Arr2 1 [[0%R]]) _
           (Arr2 1 [[(-1)%R]; [1%R]]) _ (Arr2 1 [[0%R]]) _).
  - apply transform_data_ex.
  - apply transform_data_ex_components.
Defined.

Lemma transform_data_shape_errors_witness :
  transform_data (sk := failing_PCA) (Arr1 [0%R; 2%R]) y_train_ex
    X_test_ex y_test_ex None false empty_world
  = (Raise ValueError, empty_world)
  ∧ transform_data (sk := failing_PCA) X_train_ex y_train_ex
      (Arr2 2 [[1%R; 1%R]]) y_test_ex None false empty_world
    = (Raise ValueError, empty_world).
Proof.
  split.
  - apply (transform_data_shape_errors (sk := failing_PCA)
             y_train_ex X_test_ex y_test_ex None false empty_world).
  - apply (proj2 (transform_data_shape_errors (sk := failing_PCA)
                    y_train_ex (Arr2 2 [[1%R; 1%R]]) y_test_ex None false
                    empty_world) 1 [[0%R]; [2%R]]).
    + discriminate.
    + discriminate.
    + intros rows'. discriminate.
Defined.

Lemma transform_data_test_uses_train_statistics_witness :
  (∃ rows_t',
     Arr2 1 [[0%R]] = Arr2 1 rows_t' ∧ length rows_t' = length [[1%R]]
     ∧ ∀ i j r x, [[1%R]] !! i = Some r → r !! j = Some x → j < 1 →
         ∃ r', rows_t' !! i = Some r'
               ∧ r' !! j
                 = Some ((x - mean (column j [[0%R]; [2%R]]))
                         / column_scale (column j [[0%R]; [2%R]]))%R)
  ∧ ravel (Arr2 1 [[0%R]])
    = (λ y, (y - mean (ravel y_train_ex)) / column_scale (ravel y_train_ex))%R
      <$> ravel y_test_ex.
Proof.
  apply (transform_data_test_uses_train_statistics (sk := failing_PCA)
           1 [[0%R]; [2%R]] [[1%R]] y_train_ex y_test_ex None
           empty_world empty_world
           (Arr2 1 [[(-1)%R]; [1%R]]) (Arr2 1 [[(-1)%R]; [1%R]])
           _ _
           (Some {| mean_ := [2%R]; var_ := [1%R]; scale_ := [1%R] |})).
  apply transform_data_ex.
Defined.

(** ** Constant columns *)

Lemma sum_constant (l : list R) c :
  Forall (λ x, x = c) l → foldr Rplus 0%R l = (INR (length l) * c)%R.
Proof.
  induction 1 as [|x l Hx Hl IH].
  - cbn. ring.
  - cbn [foldr length]. rewrite IH, S_INR, Hx. ring.
Qed.

Lemma mean_constant (l : list R) c :
  l ≠ [] → Forall (λ x, x = c) l → mean l = c.
Proof.
  intros Hl Hc. apply INR_length_nonzero in Hl.
  unfold mean. rewrite (sum_constant _ _ Hc). by field.
Qed.

Lemma variance_constant (l : list R) c :
  l ≠ [] → Forall (λ x, x = c) l → variance l = 0%R.
Proof.
  intros Hl Hc. unfold variance.
  rewrite (mean_constant _ _ Hl Hc).
  assert (Hz : Forall (λ x, x = 0%R) ((λ x, (x - c) ^ 2)%R <$> l)).
  { apply Forall_fmap. eapply Forall_impl; [exact Hc|].
    intros x ->. cbn. ring. }
  unfold mean. rewrite (sum_constant _ _ Hz).
  unfold Rdiv. ring.
Qed.

Lemma column_scale_constant (l : list R) c :
  l ≠ [] → Forall (λ x, x = c) l → column_scale l = 1%R.
Proof.
  intros Hl Hc. unfold column_scale.
  by rewrite (variance_constant _ _ Hl Hc), is_constant_feature_zero.
Qed.

(** A column that is not constant and is taken for constant: the two
    samples [2^27] and [2^27 + 2^-25]. Its deviation is [2^-26]; its
    variance [2^-52] is within the error bound, about [2^-48], so the
    fitted scale is one. *)
Example column_scale_near_constant :
  std [2 ^ 27; 2 ^ 27 + / 2 ^ 25]%R = (/ 2 ^ 26)%R
  ∧ column_scale [2 ^ 27; 2 ^ 27 + / 2 ^ 25]%R = 1%R.
Proof.
  assert (Hm : mean [2 ^ 27; 2 ^ 27 + / 2 ^ 25]%R = (2 ^ 27 + / 2 ^ 26)%R).
  { unfold mean. cbn [foldr length INR]. field. }
  assert (Hv : variance [2 ^ 27; 2 ^ 27 + / 2 ^ 25]%R = (/ 2 ^ 52)%R).
  { unfold variance. rewrite Hm. unfold mean.
    cbn [fmap list_fmap foldr length INR]. field. }
  split.
  - unfold std. rewrite Hv.
    replace (/ 2 ^ 52)%R with (/ 2 ^ 26 * / 2 ^ 26)%R by field.
    apply sqrt_square. left. apply Rinv_0_lt_compat. lra.
  - unfold column_scale, is_constant_feature. rewrite Hv, Hm.
    destruct (Rle_dec _ _) as [|Hgt]; [done|]. destruct Hgt.
    cbn [length INR]. unfold eps.
    set (e := (/ 2 ^ 52)%R).
    assert (He : (0 < e)%R) by (apply Rinv_0_lt_compat; lra).
    assert (Hq : (0 < / 2 ^ 26)%R) by (apply Rinv_0_lt_compat; lra).
    assert (Hsq : (e <= (2 ^ 28 * e) ^ 2)%R).
    { replace ((2 ^ 28 * e) ^ 2)%R with (e * (2 ^ 56 * e))%R by ring.
      rewrite <- (Rmult_1_r e) at 1.
      apply Rmult_le_compat_l; [lra|].
      unfold e. replace (2 ^ 56 * / 2 ^ 52)%R with 16%R by field. lra. }
    assert (Hmono : ((2 ^ 28 * e) ^ 2
                     <= ((1 + 1) * (2 ^ 27 + / 2 ^ 26) * e) ^ 2)%R).
    { apply pow_incr. split; [nra|].
      apply Rmult_le_compat_r; lra. }
    assert (0 <= (1 + 1) * e * e)%R by nra.
    lra.
Qed.

Section transform_constant_column.
Context `{sk : PCA}.

(** X15. A constant training column does not make the scaling divide by
    zero: without PCA, if every entry of column [j] of [X_train] is [c],
    the column is returned as zeros and the entries of column [j] of
    [X_test] are only shifted, to themselves minus [c]. *)
Theorem transform_data_constant_column (d : nat)
    (rows rows_t : list (list R)) (y_train y_test : ndarray)
    (n_components : option nat) (w w' : world)
    (Xs ys Xt yt : ndarray) (sc : StandardScaler) (j : nat) (c : R) :
  rectangular (Arr2 d rows) = true →
  transform_data (Arr2 d rows) y_train (Arr2 d rows_t) y_test
    n_components false w
  = (Ok (Xs, ys, Xt, yt, sc), w') →
  j < d →
  Forall (λ x, x = c) (column j rows) →
  (∃ rows_s, Xs = Arr2 d rows_s ∧ Forall (λ x, x = 0%R) (column j rows_s))
  ∧ (∃ rows_t',
       Xt = Arr2 d rows_t'
       ∧ ∀ i r x, rows_t !! i = Some r → r !! j = Some x →
           ∃ r', rows_t' !! i = Some r' ∧ r' !! j = Some (x - c)%R).
Proof.
  intros Hrect Hrun Hj Hc.
  apply transform_data_Ok in Hrun as (fr & Hfr & -> & -> & -> & -> & ->).
  destruct (transform_data_frame_Ok _ _ _ _ _ _ _ _ _ Hfr)
    as (X0 & T0 & HX & HXt & _ & _ & -> & -> & _).
  assert (Hrows : rows ≠ []).
  { apply scaler_fit_transform_Ok in HX as [Hfit _].
    by apply scaler_fit_Ok in Hfit as (? & ? & [= <- <-] & ? & _). }
  assert (Hcol : column j rows ≠ []).
  { unfold column. by destruct rows. }
  assert (Hmean := mean_constant _ _ Hcol Hc).
  assert (Hscale := column_scale_constant _ _ Hcol Hc).
  split.
  - destruct (scaler_fit_transform_standardized _ _ _ _ _ Hrect HX)
      as (rows_s & -> & Hcols).
    exists rows_s. split; [done|].
    destruct (Hcols j Hj) as (-> & _ & _).
    apply Forall_fmap. eapply Forall_impl; [exact Hc|].
    intros x ->. cbn. rewrite Hmean, Hscale. field.
  - apply scaler_fit_transform_Ok in HX as [Hfit _].
    apply scaler_fit_Ok in Hfit as (d0 & rows0 & [= <- <-] & _ & _ & Hf).
    rewrite Hf in HXt.
    apply scaler_transform_Ok in HXt
      as (f & d1 & rows1 & [= <-] & [= <- <-] & _ & _ & _ & ->).
    eexists. split; [done|]. intros i r x Hr Hx.
    destruct (fit_statistics_lookup d rows j Hj) as [Hm Hs].
    eexists. split.
    + rewrite list_lookup_fmap, Hr. done.
    + rewrite (scale_row_lookup _ _ _ _ _ _ Hx Hm Hs), Hmean, Hscale.
      f_equal. field.
Qed.
End transform_constant_column.

Lemma transform_data_constant_column_witness :
  ∃ Xs Xt,
    (∃ rows_s, Xs = Arr2 2 rows_s
               ∧ Forall (λ x, x = 0%R) (column 1 rows_s))
    ∧ (∃ rows_t',
         Xt = Arr2 2 rows_t'
         ∧ ∀ i r x, [[4%R; 5%R]] !! i = Some r → r !! 1 = Some x →
             ∃ r', rows_t' !! i = Some r' ∧ r' !! 1 = Some (x - 3)%R).
Proof.
  destruct (transform_data_returns (sk := failing_PCA)
              2 [[0%R; 3%R]; [2%R; 3%R]] [[4%R; 5%R]]
              y_train_ex y_test_ex None empty_world)
    as (Xs & ys & Xt & yt & sc & Hrun); try discriminate.
  exists Xs, Xt.
  apply (transform_data_constant_column (sk := failing_PCA)
           2 [[0%R; 3%R]; [2%R; 3%R]] [[4%R; 5%R]]
           y_train_ex y_test_ex None empty_world empty_world
           Xs ys Xt yt sc 1 3%R).
  - reflexivity.
  - exact Hrun.
  - lia.
  - repeat constructor.
Defined.
